(** * Referral tree of the MLM backend: registration, statistics, network view

    A shallow embedding of the Express/Mongoose handlers that build and
    read the sponsor tree:

    - [models/User.js]: the user schema, [generateUniqueCode],
      [findByEmail], [findByCode];
    - [routes/auth.js]: [POST /register], [POST /login];
    - [routes/dashboard.js]: [GET /] (dashboard statistics);
    - the ambassador routes: [GET /earnings], [GET /network];
    - the user routes: [PUT /profile/:userId],
      [PUT /change-password/:userId], [PUT /:userId/status],
      [DELETE /:userId].

    The [users] collection is a list of documents in insertion order.
    Every handler is a function from the request and the collection to a
    response and the collection that results.  What a handler obtains from
    outside the program (the fresh ObjectId, the clock, [Math.random], the
    bcrypt digest) is passed in an explicit environment.  The routes behind
    [authenticateToken] are modelled after it: they are given the
    authenticated user, [reqUser].

    Conventions: the built-ins [String.prototype.toLowerCase] and [trim],
    whose Unicode tables are not part of the program, are taken from the
    environment; what Mongoose does with the update operators other than
    [$set] and with dotted paths is a parameter of the update; the Number
    fields [level], [totalEarnings] and [totalPurchases] hold integers
    ([Z]) and [commissionRate] a rational. *)

From Stdlib Require Import ZArith QArith List String Ascii Lia Bool Sorted.
From stdpp Require Import base option list strings gmap pretty.
From stdpp Require finite.

Open Scope Z_scope.

(** ** Strings *)

Module Str.

(** The restriction of [toLowerCase] and [trim] to ASCII.  The handlers do
    not use these: they take the built-ins from the environment.  They are
    the instance the examples run on. *)
Definition lower_ascii (c : ascii) : ascii :=
  let n := nat_of_ascii c in
  if ((65 <=? n)%nat && (n <=? 90)%nat)%bool then ascii_of_nat (n + 32) else c.

Fixpoint lowerASCII (s : string) : string :=
  match s with
  | EmptyString => EmptyString
  | String c r => String (lower_ascii c) (lowerASCII r)
  end.

(** The ASCII white space: TAB, LF, VT, FF, CR and space. *)
Definition is_space (c : ascii) : bool :=
  let n := nat_of_ascii c in
  (((9 <=? n)%nat && (n <=? 13)%nat) || (n =? 32)%nat)%bool.

Fixpoint trimStart (s : string) : string :=
  match s with
  | EmptyString => EmptyString
  | String c r => if is_space c then trimStart r else s
  end.

(** [trimEnd s] drops the trailing white space: a character is kept when
    it is not white space or when something is kept after it. *)
Fixpoint trimEnd (s : string) : string :=
  match s with
  | EmptyString => EmptyString
  | String c r =>
      match trimEnd r with
      | EmptyString => if is_space c then EmptyString else String c EmptyString
      | r' => String c r'
      end
  end.

Definition trimASCII (s : string) : string := trimEnd (trimStart s).

Fixpoint replicate_char (n : nat) (c : ascii) : string :=
  match n with
  | O => EmptyString
  | S k => String c (replicate_char k c)
  end.

(** [s.padStart(n, c)] for a one-character pad. *)
Definition padStart (n : nat) (c : ascii) (s : string) : string :=
  replicate_char (n - String.length s) c +:+ s.

(** JavaScript truthiness of a value that is a string or [undefined]. *)
Definition truthy (o : option string) : bool :=
  match o with
  | Some s => negb (String.eqb s EmptyString)
  | None => false
  end.

End Str.

(** ** The user schema ([models/User.js]) *)

Definition ObjectId := nat.

Inductive Role := admin | ambassador | client.
Inductive Status := active | inactive | pending.
Inductive Language := it | en | es | fr.

Record Address := mkAddress {
  street : option string;
  city : option string;
  state : option string;
  zipCode : option string;
  country : option string
}.

Record User := mkUser {
  _id : ObjectId;
  email : string;
  password : string;
  firstName : string;
  lastName : string;
  phone : option string;
  role : Role;
  status : Status;
  sponsorId : option ObjectId;
  upline : list ObjectId;
  downline : list ObjectId;
  level : Z;
  ambassadorCode : option string;
  commissionRate : Q;
  totalEarnings : Z;
  clientCode : option string;
  totalPurchases : Z;
  avatar : option string;
  address : option Address;
  dateOfBirth : option Z;
  language : Language;
  timezone : string;
  lastLogin : option Z;
  emailVerified : bool;
  phoneVerified : bool;
  createdAt : Z;
  updatedAt : Z
}.

Definition set_email (v : string) (u : User) : User :=
  mkUser (_id u) v (password u) (firstName u) (lastName u) (phone u) (role u)
    (status u) (sponsorId u) (upline u) (downline u) (level u)
    (ambassadorCode u) (commissionRate u) (totalEarnings u) (clientCode u)
    (totalPurchases u) (avatar u) (address u) (dateOfBirth u) (language u)
    (timezone u) (lastLogin u) (emailVerified u) (phoneVerified u)
    (createdAt u) (updatedAt u).
Definition set_password (v : string) (u : User) : User :=
  mkUser (_id u) (email u) v (firstName u) (lastName u) (phone u) (role u)
    (status u) (sponsorId u) (upline u) (downline u) (level u)
    (ambassadorCode u) (commissionRate u) (totalEarnings u) (clientCode u)
    (totalPurchases u) (avatar u) (address u) (dateOfBirth u) (language u)
    (timezone u) (lastLogin u) (emailVerified u) (phoneVerified u)
    (createdAt u) (updatedAt u).
Definition set_firstName (v : string) (u : User) : User :=
  mkUser (_id u) (email u) (password u) v (lastName u) (phone u) (role u)
    (status u) (sponsorId u) (upline u) (downline u) (level u)
    (ambassadorCode u) (commissionRate u) (totalEarnings u) (clientCode u)
    (totalPurchases u) (avatar u) (address u) (dateOfBirth u) (language u)
    (timezone u) (lastLogin u) (emailVerified u) (phoneVerified u)
    (createdAt u) (updatedAt u).
Definition set_lastName (v : string) (u : User) : User :=
  mkUser (_id u) (email u) (password u) (firstName u) v (phone u) (role u)
    (status u) (sponsorId u) (upline u) (downline u) (level u)
    (ambassadorCode u) (commissionRate u) (totalEarnings u) (clientCode u)
    (totalPurchases u) (avatar u) (address u) (dateOfBirth u) (language u)
    (timezone u) (lastLogin u) (emailVerified u) (phoneVerified u)
    (createdAt u) (updatedAt u).
Definition set_phone (v : option string) (u : User) : User :=
  mkUser (_id u) (email u) (password u) (firstName u) (lastName u) v (role u)
    (status u) (sponsorId u) (upline u) (downline u) (level u)
    (ambassadorCode u) (commissionRate u) (totalEarnings u) (clientCode u)
    (totalPurchases u) (avatar u) (address u) (dateOfBirth u) (language u)
    (timezone u) (lastLogin u) (emailVerified u) (phoneVerified u)
    (createdAt u) (updatedAt u).
Definition set_role (v : Role) (u : User) : User :=
  mkUser (_id u) (email u) (password u) (firstName u) (lastName u) (phone u)
    v (status u) (sponsorId u) (upline u) (downline u) (level u)
    (ambassadorCode u) (commissionRate u) (totalEarnings u) (clientCode u)
    (totalPurchases u) (avatar u) (address u) (dateOfBirth u) (language u)
    (timezone u) (lastLogin u) (emailVerified u) (phoneVerified u)
    (createdAt u) (updatedAt u).
Definition set_status (v : Status) (u : User) : User :=
  mkUser (_id u) (email u) (password u) (firstName u) (lastName u) (phone u)
    (role u) v (sponsorId u) (upline u) (downline u) (level u)
    (ambassadorCode u) (commissionRate u) (totalEarnings u) (clientCode u)
    (totalPurchases u) (avatar u) (address u) (dateOfBirth u) (language u)
    (timezone u) (lastLogin u) (emailVerified u) (phoneVerified u)
    (createdAt u) (updatedAt u).
Definition set_sponsorId (v : option ObjectId) (u : User) : User :=
  mkUser (_id u) (email u) (password u) (firstName u) (lastName u) (phone u)
    (role u) (status u) v (upline u) (downline u) (level u)
    (ambassadorCode u) (commissionRate u) (totalEarnings u) (clientCode u)
    (totalPurchases u) (avatar u) (address u) (dateOfBirth u) (language u)
    (timezone u) (lastLogin u) (emailVerified u) (phoneVerified u)
    (createdAt u) (updatedAt u).
Definition set_upline (v : list ObjectId) (u : User) : User :=
  mkUser (_id u) (email u) (password u) (firstName u) (lastName u) (phone u)
    (role u) (status u) (sponsorId u) v (downline u) (level u)
    (ambassadorCode u) (commissionRate u) (totalEarnings u) (clientCode u)
    (totalPurchases u) (avatar u) (address u) (dateOfBirth u) (language u)
    (timezone u) (lastLogin u) (emailVerified u) (phoneVerified u)
    (createdAt u) (updatedAt u).
Definition set_downline (v : list ObjectId) (u : User) : User :=
  mkUser (_id u) (email u) (password u) (firstName u) (lastName u) (phone u)
    (role u) (status u) (sponsorId u) (upline u) v (level u)
    (ambassadorCode u) (commissionRate u) (totalEarnings u) (clientCode u)
    (totalPurchases u) (avatar u) (address u) (dateOfBirth u) (language u)
    (timezone u) (lastLogin u) (emailVerified u) (phoneVerified u)
    (createdAt u) (updatedAt u).
Definition set_level (v : Z) (u : User) : User :=
  mkUser (_id u) (email u) (password u) (firstName u) (lastName u) (phone u)
    (role u) (status u) (sponsorId u) (upline u) (downline u) v
    (ambassadorCode u) (commissionRate u) (totalEarnings u) (clientCode u)
    (totalPurchases u) (avatar u) (address u) (dateOfBirth u) (language u)
    (timezone u) (lastLogin u) (emailVerified u) (phoneVerified u)
    (createdAt u) (updatedAt u).
Definition set_ambassadorCode (v : option string) (u : User) : User :=
  mkUser (_id u) (email u) (password u) (firstName u) (lastName u) (phone u)
    (role u) (status u) (sponsorId u) (upline u) (downline u) (level u) v
    (commissionRate u) (totalEarnings u) (clientCode u) (totalPurchases u)
    (avatar u) (address u) (dateOfBirth u) (language u) (timezone u)
    (lastLogin u) (emailVerified u) (phoneVerified u) (createdAt u)
    (updatedAt u).
Definition set_commissionRate (v : Q) (u : User) : User :=
  mkUser (_id u) (email u) (password u) (firstName u) (lastName u) (phone u)
    (role u) (status u) (sponsorId u) (upline u) (downline u) (level u)
    (ambassadorCode u) v (totalEarnings u) (clientCode u) (totalPurchases u)
    (avatar u) (address u) (dateOfBirth u) (language u) (timezone u)
    (lastLogin u) (emailVerified u) (phoneVerified u) (createdAt u)
    (updatedAt u).
Definition set_totalEarnings (v : Z) (u : User) : User :=
  mkUser (_id u) (email u) (password u) (firstName u) (lastName u) (phone u)
    (role u) (status u) (sponsorId u) (upline u) (downline u) (level u)
    (ambassadorCode u) (commissionRate u) v (clientCode u) (totalPurchases u)
    (avatar u) (address u) (dateOfBirth u) (language u) (timezone u)
    (lastLogin u) (emailVerified u) (phoneVerified u) (createdAt u)
    (updatedAt u).
Definition set_clientCode (v : option string) (u : User) : User :=
  mkUser (_id u) (email u) (password u) (firstName u) (lastName u) (phone u)
    (role u) (status u) (sponsorId u) (upline u) (downline u) (level u)
    (ambassadorCode u) (commissionRate u) (totalEarnings u) v
    (totalPurchases u) (avatar u) (address u) (dateOfBirth u) (language u)
    (timezone u) (lastLogin u) (emailVerified u) (phoneVerified u)
    (createdAt u) (updatedAt u).
Definition set_totalPurchases (v : Z) (u : User) : User :=
  mkUser (_id u) (email u) (password u) (firstName u) (lastName u) (phone u)
    (role u) (status u) (sponsorId u) (upline u) (downline u) (level u)
    (ambassadorCode u) (commissionRate u) (totalEarnings u) (clientCode u) v
    (avatar u) (address u) (dateOfBirth u) (language u) (timezone u)
    (lastLogin u) (emailVerified u) (phoneVerified u) (createdAt u)
    (updatedAt u).
Definition set_avatar (v : option string) (u : User) : User :=
  mkUser (_id u) (email u) (password u) (firstName u) (lastName u) (phone u)
    (role u) (status u) (sponsorId u) (upline u) (downline u) (level u)
    (ambassadorCode u) (commissionRate u) (totalEarnings u) (clientCode u)
    (totalPurchases u) v (address u) (dateOfBirth u) (language u)
    (timezone u) (lastLogin u) (emailVerified u) (phoneVerified u)
    (createdAt u) (updatedAt u).
Definition set_address (v : option Address) (u : User) : User :=
  mkUser (_id u) (email u) (password u) (firstName u) (lastName u) (phone u)
    (role u) (status u) (sponsorId u) (upline u) (downline u) (level u)
    (ambassadorCode u) (commissionRate u) (totalEarnings u) (clientCode u)
    (totalPurchases u) (avatar u) v (dateOfBirth u) (language u) (timezone u)
    (lastLogin u) (emailVerified u) (phoneVerified u) (createdAt u)
    (updatedAt u).
Definition set_dateOfBirth (v : option Z) (u : User) : User :=
  mkUser (_id u) (email u) (password u) (firstName u) (lastName u) (phone u)
    (role u) (status u) (sponsorId u) (upline u) (downline u) (level u)
    (ambassadorCode u) (commissionRate u) (totalEarnings u) (clientCode u)
    (totalPurchases u) (avatar u) (address u) v (language u) (timezone u)
    (lastLogin u) (emailVerified u) (phoneVerified u) (createdAt u)
    (updatedAt u).
Definition set_language (v : Language) (u : User) : User :=
  mkUser (_id u) (email u) (password u) (firstName u) (lastName u) (phone u)
    (role u) (status u) (sponsorId u) (upline u) (downline u) (level u)
    (ambassadorCode u) (commissionRate u) (totalEarnings u) (clientCode u)
    (totalPurchases u) (avatar u) (address u) (dateOfBirth u) v (timezone u)
    (lastLogin u) (emailVerified u) (phoneVerified u) (createdAt u)
    (updatedAt u).
Definition set_timezone (v : string) (u : User) : User :=
  mkUser (_id u) (email u) (password u) (firstName u) (lastName u) (phone u)
    (role u) (status u) (sponsorId u) (upline u) (downline u) (level u)
    (ambassadorCode u) (commissionRate u) (totalEarnings u) (clientCode u)
    (totalPurchases u) (avatar u) (address u) (dateOfBirth u) (language u) v
    (lastLogin u) (emailVerified u) (phoneVerified u) (createdAt u)
    (updatedAt u).
Definition set_lastLogin (v : option Z) (u : User) : User :=
  mkUser (_id u) (email u) (password u) (firstName u) (lastName u) (phone u)
    (role u) (status u) (sponsorId u) (upline u) (downline u) (level u)
    (ambassadorCode u) (commissionRate u) (totalEarnings u) (clientCode u)
    (totalPurchases u) (avatar u) (address u) (dateOfBirth u) (language u)
    (timezone u) v (emailVerified u) (phoneVerified u) (createdAt u)
    (updatedAt u).
Definition set_emailVerified (v : bool) (u : User) : User :=
  mkUser (_id u) (email u) (password u) (firstName u) (lastName u) (phone u)
    (role u) (status u) (sponsorId u) (upline u) (downline u) (level u)
    (ambassadorCode u) (commissionRate u) (totalEarnings u) (clientCode u)
    (totalPurchases u) (avatar u) (address u) (dateOfBirth u) (language u)
    (timezone u) (lastLogin u) v (phoneVerified u) (createdAt u)
    (updatedAt u).
Definition set_phoneVerified (v : bool) (u : User) : User :=
  mkUser (_id u) (email u) (password u) (firstName u) (lastName u) (phone u)
    (role u) (status u) (sponsorId u) (upline u) (downline u) (level u)
    (ambassadorCode u) (commissionRate u) (totalEarnings u) (clientCode u)
    (totalPurchases u) (avatar u) (address u) (dateOfBirth u) (language u)
    (timezone u) (lastLogin u) (emailVerified u) v (createdAt u)
    (updatedAt u).
Definition set_updatedAt (v : Z) (u : User) : User :=
  mkUser (_id u) (email u) (password u) (firstName u) (lastName u) (phone u)
    (role u) (status u) (sponsorId u) (upline u) (downline u) (level u)
    (ambassadorCode u) (commissionRate u) (totalEarnings u) (clientCode u)
    (totalPurchases u) (avatar u) (address u) (dateOfBirth u) (language u)
    (timezone u) (lastLogin u) (emailVerified u) (phoneVerified u)
    (createdAt u) v.

#[global] Instance Role_eq_dec : EqDecision Role.
Proof. solve_decision. Defined.
#[global] Instance Status_eq_dec : EqDecision Status.
Proof. solve_decision. Defined.

(** The [enum] validator of [role]: the three role names, as strings. *)
Definition parseRole (s : string) : option Role :=
  if String.eqb s "admin" then Some admin
  else if String.eqb s "ambassador" then Some ambassador
  else if String.eqb s "client" then Some client
  else None.

(** ** What a request gets from outside *)

Record Env := mkEnv {
  (** the ObjectId the driver gives to the next new document *)
  newObjectId : ObjectId;
  (** the clock ([Date.now()]) *)
  now : Z;
  (** the successive values of [Math.random()], the k-th being
      [(random k mod 2^53) / 2^53] *)
  random : nat -> N;
  (** how many draws [generateUniqueCode] is followed for; the source
      loops as long as its draws collide *)
  attempts : nat;
  (** the salted bcrypt digest of a password *)
  bcrypt : string -> string;
  (** the built-ins [String.prototype.toLowerCase] and
      [String.prototype.trim] *)
  toLowerCase : string -> string;
  trim : string -> string
}.

(** [Math.floor(Math.random() * bound)] at the k-th call. *)
Definition floor_random (env : Env) (k : nat) (bound : N) : N :=
  ((random env k mod 2 ^ 53) * bound / 2 ^ 53)%N.

(** ** The [users] collection *)

Definition Db := list User.

(** [Model.findOne(filter)]: the first document, in insertion order, that
    matches. *)
Definition findOne (p : User -> bool) (db : Db) : option User := find p db.

Definition findById (id : ObjectId) (db : Db) : option User :=
  findOne (fun u => Nat.eqb (_id u) id) db.

(** A filter [{ path: value }] on an optional string path. *)
Definition path_is (o : option string) (v : string) : bool :=
  match o with
  | Some s => String.eqb s v
  | None => false
  end.

(** [{ $or: [{ ambassadorCode: code }, { clientCode: code }] }] *)
Definition code_filter (code : string) (u : User) : bool :=
  path_is (ambassadorCode u) code || path_is (clientCode u) code.

(** [userSchema.statics.findByEmail] *)
Definition findByEmail (env : Env) (e : string) (db : Db) : option User :=
  findOne (fun u => String.eqb (email u) (toLowerCase env e)) db.

(** [userSchema.statics.findByCode] *)
Definition findByCode (code : string) (db : Db) : option User :=
  findOne (code_filter code) db.

(** [updateOne({ _id: id }, ...)]: the first document with this [_id] is
    rewritten by [f]; the others stay. *)
Fixpoint updateOne (id : ObjectId) (f : User -> User) (db : Db) : Db :=
  match db with
  | [] => []
  | u :: rest =>
      if Nat.eqb (_id u) id then f u :: rest else u :: updateOne id f rest
  end.

(** [findByIdAndDelete]: the first document with this [_id] is removed. *)
Fixpoint deleteOne (id : ObjectId) (db : Db) : Db :=
  match db with
  | [] => []
  | u :: rest => if Nat.eqb (_id u) id then rest else u :: deleteOne id rest
  end.

(** Two values of a [unique, sparse] path clash when both are present and
    equal. *)
Definition sparse_clash (a b : option string) : bool :=
  match a, b with
  | Some x, Some y => String.eqb x y
  | _, _ => false
  end.

(** The unique indexes of the collection: [_id], [email], and the sparse
    ones on [ambassadorCode] and [clientCode].  [duplicateKey doc db] tells
    whether storing [doc] next to the documents of [db] violates one. *)
Definition duplicateKey (doc : User) (db : Db) : bool :=
  existsb (fun u =>
             Nat.eqb (_id u) (_id doc)
             || String.eqb (email u) (email doc)
             || sparse_clash (ambassadorCode u) (ambassadorCode doc)
             || sparse_clash (clientCode u) (clientCode doc)) db.

(** Inserting a document: refused ([None], the driver throws a duplicate
    key error) when an index is violated. *)
Definition insertOne (doc : User) (db : Db) : option Db :=
  if duplicateKey doc db then None else Some (db ++ [doc]).

(** ** [generateUniqueCode] ([models/User.js]) *)

(** One candidate: the prefix and the draw as six decimal digits. *)
Definition candidate (env : Env) (k : nat) (prefix : string) : string :=
  prefix +:+ Str.padStart 6 "0" (pretty (floor_random env k 1000000)).

(** The [while (!isUnique)] loop, from the k-th draw on.  [None]: the
    draws followed all collided.  Otherwise the code and the index of the
    next unused draw. *)
Fixpoint generateUniqueCode_from (fuel : nat) (env : Env) (k : nat)
    (db : Db) (prefix : string) : option (string * nat) :=
  match fuel with
  | O => None
  | S fuel' =>
      let code := candidate env k prefix in
      match findOne (code_filter code) db with
      | None => Some (code, S k)
      | Some _ => generateUniqueCode_from fuel' env (S k) db prefix
      end
  end.

Definition generateUniqueCode (env : Env) (k : nat) (db : Db)
    (prefix : string) : option (string * nat) :=
  generateUniqueCode_from (attempts env) env k db prefix.

(** ** [doc.save()] of a new document *)

(** The validators of the schema that a new document can fail: [required]
    on the four mandatory strings, [minlength] on the password and the
    range of [commissionRate].  ([role] is validated when it is parsed.) *)
Definition validate (doc : User) : bool :=
  negb (String.eqb (email doc) EmptyString)
  && negb (String.eqb (password doc) EmptyString)
  && negb (String.eqb (firstName doc) EmptyString)
  && negb (String.eqb (lastName doc) EmptyString)
  && (6 <=? String.length (password doc))%nat
  && Qle_bool 0 (commissionRate doc) && Qle_bool (commissionRate doc) 1.

Inductive SaveResult :=
| Saved (doc : User) (db : Db)
| SaveThrew
| SaveHangs.

(** The second [pre('save')] hook: a new ambassador or client without a
    code gets one. *)
Definition assignCodes (env : Env) (doc : User) (db : Db) : option User :=
  match
    (if bool_decide (role doc = ambassador)
        && negb (Str.truthy (ambassadorCode doc))
     then
       match generateUniqueCode env 0 db "AMB" with
       | Some (code, k) => Some (set_ambassadorCode (Some code) doc, k)
       | None => None
       end
     else Some (doc, 0%nat))
  with
  | Some (doc1, k) =>
      if bool_decide (role doc1 = client)
         && negb (Str.truthy (clientCode doc1))
      then
        match generateUniqueCode env k db "CLI" with
        | Some (code, _) => Some (set_clientCode (Some code) doc1)
        | None => None
        end
      else Some doc1
  | None => None
  end.

(** Saving a new document: validation, then the two [pre('save')] hooks
    (password digest, codes), then the insertion. *)
Definition saveNew (env : Env) (doc : User) (db : Db) : SaveResult :=
  if negb (validate doc) then SaveThrew
  else
    let hashed := set_password (bcrypt env (password doc)) doc in
    match assignCodes env hashed db with
    | None => SaveHangs
    | Some coded =>
        match insertOne coded db with
        | Some db' => Saved coded db'
        | None => SaveThrew
        end
    end.

(** Saving a stored document after [change] was made to it in memory:
    the change reaches the stored document of the same [_id], and the
    [timestamps] option refreshes [updatedAt]. *)
Definition saveChange (env : Env) (id : ObjectId) (change : User -> User)
    (db : Db) : Db :=
  updateOne id (fun u => set_updatedAt (now env) (change u)) db.

(** ** Responses *)

Record RegisteredUser := mkRegisteredUser {
  ru_id : ObjectId;
  ru_email : string;
  ru_firstName : string;
  ru_lastName : string;
  ru_role : Role;
  ru_status : Status;
  ru_ambassadorCode : option string;
  ru_clientCode : option string
}.

(** One node of the tree sent by [GET /network]. *)
#[warnings="-register-all"]
Inductive NetworkNode :=
| mkNetworkNode (id : ObjectId) (firstName lastName email : string)
    (role : Role) (status : Status) (level createdAt : Z)
    (children : list NetworkNode).

Record LevelGroup := mkLevelGroup {
  lg_id : Z;          (* _id: the level *)
  lg_count : Z;
  lg_totalEarnings : Z;
  lg_totalPurchases : Z
}.

Record MonthEarnings := mkMonthEarnings {
  month : string;
  earnings : N;
  commission : N
}.

Record EarningsSummary := mkEarningsSummary {
  es_totalEarnings : Z;
  es_totalCommission : Q;
  es_memberCount : Z;
  (** [commissionRate * 100]; its rendering with [toFixed(1)] and the
      percent sign is left out *)
  es_commissionRate : Q
}.

Record DashboardStats := mkDashboardStats {
  downlineCount : Z;
  activeDownline : Z;
  totalDownlineEarnings : Z;
  totalDownlinePurchases : Z;
  ds_commissionRate : Q
}.

Record AmbassadorView := mkAmbassadorView {
  av_id : ObjectId;
  av_firstName : string;
  av_lastName : string;
  av_email : string;
  av_level : Z
}.

(** The JSON bodies.  Tokens are left out of them, and the dashboard
    names users by their ids instead of repeating their profile fields. *)
Inductive Body :=
| Error (error message : string)
| Registered (message : string) (user : RegisteredUser)
| DashboardData (userId : ObjectId) (stats : DashboardStats)
    (recentDownline : list ObjectId)
    (monthlyEarnings : option (list (string * N)))
| EarningsData (summary : EarningsSummary)
    (earningsByLevel : list LevelGroup) (monthlyEarnings : list MonthEarnings)
| NetworkData (ambassador : AmbassadorView) (network : list NetworkNode)
| ProfileUpdated (message message_it : string) (user : User)
| Deleted (message message_it : string).

(** [res.status(s).json(body)], or no response at all when the handler
    never gets to one. *)
Inductive Response :=
| Json (status : Z) (body : Body)
| NoResponse.

Definition statusOf (r : Response) : option Z :=
  match r with
  | Json s _ => Some s
  | NoResponse => None
  end.

(** ** [POST /register] ([routes/auth.js]) *)

Record RegisterBody := mkRegisterBody {
  req_email : option string;
  req_password : option string;
  req_firstName : option string;
  req_lastName : option string;
  req_phone : option string;
  req_role : option string;
  req_sponsorCode : option string
}.

(** [new User(userData)]: the schema defaults, and the [lowercase] and
    [trim] setters on the strings (Mongoose runs the setters of a path
    last declared first: [trim], then [lowercase]). *)
Definition newUser (env : Env) (e p fn ln : string) (ph : option string)
    (r : Role) (sponsor : option User) : User :=
  {| _id := newObjectId env;
     email := toLowerCase env (trim env e);
     password := p;
     firstName := trim env fn;
     lastName := trim env ln;
     phone := trim env <$> ph;
     role := r;
     status := pending;
     sponsorId := _id <$> sponsor;
     upline := [];
     downline := [];
     level := match sponsor with
              | Some s => level s + 1
              | None => 0
              end;
     ambassadorCode := None;
     commissionRate := 5 # 100;
     totalEarnings := 0;
     clientCode := None;
     totalPurchases := 0;
     avatar := None;
     address := None;
     dateOfBirth := None;
     language := it;
     timezone := "Europe/Rome";
     lastLogin := None;
     emailVerified := false;
     phoneVerified := false;
     createdAt := now env;
     updatedAt := now env |}.

(** The sponsor lookup: [None] when a code was given and no user has it;
    [Some None] when no code was given (or an empty one, which is falsy). *)
Definition resolveSponsor (sponsorCode : option string) (db : Db)
    : option (option User) :=
  match sponsorCode with
  | Some code =>
      if Str.truthy sponsorCode then
        match findByCode code db with
        | Some s => Some (Some s)
        | None => None
        end
      else Some None
  | None => Some None
  end.

(** The [while (currentSponsor.sponsorId)] loop that fills [upline].
    [None]: the walk did not end within [fuel] steps. *)
Fixpoint buildUpline (fuel : nat) (db : Db) (currentSponsor : User)
    (upline : list ObjectId) : option (list ObjectId) :=
  match fuel with
  | O => None
  | S fuel' =>
      match sponsorId currentSponsor with
      | None => Some upline
      | Some sid =>
          let upline' := upline ++ [sid] in
          match findById sid db with
          | None => Some upline'
          | Some next => buildUpline fuel' db next upline'
          end
      end
  end.

Definition registeredUser (u : User) : RegisteredUser :=
  {| ru_id := _id u; ru_email := email u; ru_firstName := firstName u;
     ru_lastName := lastName u; ru_role := role u; ru_status := status u;
     ru_ambassadorCode := ambassadorCode u; ru_clientCode := clientCode u |}.

(** The end of the handler: [lastLogin] is stamped and saved, and the
    [201] response is sent. *)
Definition registerFinish (env : Env) (user : User) (db : Db)
    : Response * Db :=
  let user' := set_lastLogin (Some (now env)) user in
  (Json 201 (Registered "User registered successfully" (registeredUser user')),
   saveChange env (_id user) (set_lastLogin (Some (now env))) db).

Definition missingFields : Response :=
  Json 400 (Error "Missing required fields" "Campi obbligatori mancanti").
Definition userExists : Response :=
  Json 400 (Error "User already exists" "Utente già esistente").
Definition invalidSponsor : Response :=
  Json 400 (Error "Invalid sponsor code" "Codice sponsor non valido").
Definition registrationFailed : Response :=
  Json 500 (Error "Registration failed" "Registrazione fallita").

Definition register (env : Env) (body : RegisterBody) (db : Db)
    : Response * Db :=
  if negb (Str.truthy (req_email body) && Str.truthy (req_password body)
           && Str.truthy (req_firstName body) && Str.truthy (req_lastName body))
  then (missingFields, db)
  else
    match req_email body, req_password body,
          req_firstName body, req_lastName body with
    | Some e, Some p, Some fn, Some ln =>
        match findByEmail env e db with
        | Some _ => (userExists, db)
        | None =>
            match resolveSponsor (req_sponsorCode body) db with
            | None => (invalidSponsor, db)
            | Some sponsor =>
                (* role = 'client' by default; a role outside the enum
                   fails the validation of save(), caught as a 500 *)
                match parseRole (default "client" (req_role body)) with
                | None => (registrationFailed, db)
                | Some r =>
                    match saveNew env (newUser env e p fn ln (req_phone body)
                                         r sponsor) db with
                    | SaveThrew => (registrationFailed, db)
                    | SaveHangs => (NoResponse, db)
                    | Saved user db1 =>
                        match sponsor with
                        | None => registerFinish env user db1
                        | Some sp =>
                            (* sponsor.downline.push(user._id); sponsor.save() *)
                            let sp' :=
                              set_downline (downline sp ++ [_id user]) sp in
                            let db2 :=
                              saveChange env (_id sp')
                                (set_downline (downline sp')) db1 in
                            (* the upline walk; user.upline = upline;
                               user.save().  A walk of more steps than
                               there are users never ends. *)
                            match buildUpline (S (length db2)) db2 sp' [] with
                            | None => (NoResponse, db2)
                            | Some up =>
                                registerFinish env (set_upline up user)
                                  (saveChange env (_id user) (set_upline up) db2)
                            end
                        end
                    end
                end
            end
        end
    | _, _, _, _ => (missingFields, db)
    end.

(** ** [POST /login] ([routes/auth.js]) *)

Record LoginBody := mkLoginBody {
  login_email : option string;
  login_password : option string;
  (** whether [rememberMe] is truthy *)
  login_rememberMe : bool
}.

(** What the token is signed over: the payload and the expiry. *)
Record Token := mkToken {
  tk_userId : ObjectId;
  tk_expiresIn : string
}.

Record LoggedInUser := mkLoggedInUser {
  lu_id : ObjectId;
  lu_email : string;
  lu_firstName : string;
  lu_lastName : string;
  lu_role : Role;
  lu_status : Status;
  lu_ambassadorCode : option string;
  lu_clientCode : option string;
  lu_language : Language
}.

Inductive LoginResponse :=
| LoginError (status : Z) (error message : string)
| LoginOk (message : string) (token : Token) (user : LoggedInUser).

Definition loggedInUser (u : User) : LoggedInUser :=
  {| lu_id := _id u; lu_email := email u; lu_firstName := firstName u;
     lu_lastName := lastName u; lu_role := role u; lu_status := status u;
     lu_ambassadorCode := ambassadorCode u; lu_clientCode := clientCode u;
     lu_language := language u |}.

(** [userSchema.methods.comparePassword]; [bcryptCompare] is
    [bcrypt.compare]. *)
Definition comparePassword (bcryptCompare : string -> string -> bool)
    (candidatePassword : string) (u : User) : bool :=
  bcryptCompare candidatePassword (password u).

Definition credentialsRequired : LoginResponse :=
  LoginError 400 "Email and password required" "Email e password richieste".
Definition invalidCredentials : LoginResponse :=
  LoginError 401 "Invalid credentials" "Credenziali non valide".
Definition accountNotActive : LoginResponse :=
  LoginError 403 "Account not active" "Account non attivo".

Definition login (env : Env) (bcryptCompare : string -> string -> bool)
    (body : LoginBody) (db : Db) : LoginResponse * Db :=
  if negb (Str.truthy (login_email body))
     || negb (Str.truthy (login_password body))
  then (credentialsRequired, db)
  else
    match login_email body, login_password body with
    | Some e, Some p =>
        match findByEmail env e db with
        | None => (invalidCredentials, db)
        | Some user =>
            if negb (comparePassword bcryptCompare p user)
            then (invalidCredentials, db)
            else if negb (bool_decide (status user = active))
            then (accountNotActive, db)
            else
              let tokenExpiry :=
                if login_rememberMe body then "30d" else "7d" in
              let token := mkToken (_id user) tokenExpiry in
              (* user.lastLogin = new Date(); user.save() *)
              let user' := set_lastLogin (Some (now env)) user in
              (LoginOk "Login successful" token (loggedInUser user'),
               saveChange env (_id user) (set_lastLogin (Some (now env))) db)
        end
    | _, _ => (credentialsRequired, db)
    end.

(** ** Queries shared by the statistics routes *)

(** [.sort(...)]: a stable insertion sort; [before x y] tells that [x] may
    stand before [y]. *)
Fixpoint insertBy {A : Type} (before : A -> A -> bool) (x : A) (l : list A)
    : list A :=
  match l with
  | [] => [x]
  | y :: rest => if before x y then x :: l else y :: insertBy before x rest
  end.

Definition sortBy {A : Type} (before : A -> A -> bool) (l : list A) : list A :=
  fold_right (insertBy before) [] l.

(** [{ createdAt: -1 }]: newest first. *)
Definition newestFirst (a b : User) : bool := createdAt b <=? createdAt a.

(** The filter [{ sponsorId: id }]. *)
Definition sponsoredBy (id : ObjectId) (u : User) : bool :=
  match sponsorId u with
  | Some s => Nat.eqb s id
  | None => false
  end.

(** The filter [{ upline: id }]: the array holds [id]. *)
Definition hasInUpline (id : ObjectId) (u : User) : bool :=
  existsb (Nat.eqb id) (upline u).

(** [.populate('downline')]: the stored documents of the listed ids, in
    the order of the list; an id without a document is dropped. *)
Definition populate (ids : list ObjectId) (db : Db) : list User :=
  omap (fun id => findById id db) ids.

Definition sumOf (f : User -> Z) (l : list User) : Z :=
  fold_left (fun sum u => sum + f u) l 0.

Definition countOf (p : User -> bool) (l : list User) : Z :=
  Z.of_nat (length (List.filter p l)).

(** ** [GET /] ([routes/dashboard.js]) *)

Definition monthNames : list string :=
  ["Gen"; "Feb"; "Mar"; "Apr"; "Mag"; "Giu"].

Definition dashboardFailed : Response :=
  Json 500 (Error "Failed to load dashboard" "Impossibile caricare la dashboard").

Definition dashboardStats (user : User) (populated : list User)
    : DashboardStats :=
  {| downlineCount := Z.of_nat (length populated);
     activeDownline :=
       countOf (fun u => bool_decide (status u = active)) populated;
     totalDownlineEarnings := sumOf totalEarnings populated;
     totalDownlinePurchases := sumOf totalPurchases populated;
     ds_commissionRate :=
       if Qeq_bool (commissionRate user) 0 then 5 # 100
       else commissionRate user |}.

Definition dashboard (env : Env) (reqUser : User) (db : Db)
    : Response * Db :=
  match findById (_id reqUser) db with
  | None => (dashboardFailed, db)
  | Some user =>
      let populated := populate (downline user) db in
      let stats := dashboardStats user populated in
      let recentDownline := take 5 (sortBy newestFirst populated) in
      let monthlyEarnings :=
        if bool_decide (role user = ambassador) then
          Some (imap (fun k m => (m, floor_random env k 1000)) monthNames)
        else None in
      (Json 200 (DashboardData (_id user) stats (map _id recentDownline)
                   monthlyEarnings), db)
  end.

(** ** [GET /earnings] (ambassador routes) *)

(** The [$group] stage with [_id: null]: no group for no document. *)
Definition groupAll (docs : list User) : list (Z * Z * Z) :=
  match docs with
  | [] => []
  | _ => [(sumOf totalEarnings docs, sumOf totalPurchases docs,
           Z.of_nat (length docs))]
  end.

(** The [$group] stage with [_id: '$level']. *)
Fixpoint addToLevel (u : User) (groups : list LevelGroup) : list LevelGroup :=
  match groups with
  | [] => [mkLevelGroup (level u) 1 (totalEarnings u) (totalPurchases u)]
  | g :: rest =>
      if lg_id g =? level u then
        mkLevelGroup (lg_id g) (lg_count g + 1)
          (lg_totalEarnings g + totalEarnings u)
          (lg_totalPurchases g + totalPurchases u) :: rest
      else g :: addToLevel u rest
  end.

Definition groupByLevel (docs : list User) : list LevelGroup :=
  fold_left (fun groups u => addToLevel u groups) docs [].

(** [earningsByLevel]: [$match { upline: id }], [$group] by level,
    [$sort { _id: 1 }]. *)
Definition earningsByLevel (id : ObjectId) (db : Db) : list LevelGroup :=
  sortBy (fun a b => lg_id a <=? lg_id b)
    (groupByLevel (List.filter (hasInUpline id) db)).

(** The flat summary: [$match { sponsorId: id }] and one group. *)
Definition earningsSummary (reqUser : User) (db : Db) : EarningsSummary :=
  let earnings := groupAll (List.filter (sponsoredBy (_id reqUser)) db) in
  let commissionRate :=
    if Qeq_bool (commissionRate reqUser) 0 then 5 # 100
    else commissionRate reqUser in
  let first := head earnings in
  {| es_totalEarnings := default 0 ((fun g => g.1.1) <$> first);
     es_totalCommission :=
       inject_Z (default 0 ((fun g => g.1.2) <$> first)) * commissionRate;
     es_memberCount := default 0 ((fun g => g.2) <$> first);
     es_commissionRate := commissionRate * 100 |}.

Definition monthlyEarningsOf (env : Env) : list MonthEarnings :=
  imap (fun k m =>
          mkMonthEarnings m (floor_random env (2 * k) 1000)
            (floor_random env (2 * k + 1) 100)) monthNames.

Definition getEarnings (env : Env) (reqUser : User) (db : Db)
    : Response * Db :=
  (Json 200 (EarningsData (earningsSummary reqUser db)
               (earningsByLevel (_id reqUser) db) (monthlyEarningsOf env)),
   db).

(** ** [GET /network] (ambassador routes) *)

(** [currentLevel >= maxLevel], where [maxLevel] is what [parseInt] gave:
    an integer, or [NaN] ([None]), with which every comparison is false. *)
Definition reached (currentLevel : Z) (maxLevel : option Z) : bool :=
  match maxLevel with
  | Some m => m <=? currentLevel
  | None => false
  end.

Definition networkNode (member : User) (children : list NetworkNode)
    : NetworkNode :=
  mkNetworkNode (_id member) (firstName member) (lastName member)
    (email member) (role member) (status member) (level member)
    (createdAt member) children.

(** [buildNetworkTree(userId, currentLevel, maxLevel)].  The recursion of
    the source is on the stored users, not on a decreasing argument, so the
    model counts the nested calls: [None] when more than [fuel] were
    needed. *)
Fixpoint buildNetworkTree (fuel : nat) (db : Db) (userId : ObjectId)
    (currentLevel : Z) (maxLevel : option Z) : option (list NetworkNode) :=
  match fuel with
  | O => None
  | S fuel' =>
      if reached currentLevel maxLevel then Some []
      else
        let downline :=
          sortBy newestFirst (List.filter (sponsoredBy userId) db) in
        mapM (fun member =>
                children ← buildNetworkTree fuel' db (_id member)
                             (currentLevel + 1) maxLevel;
                Some (networkNode member children))
             downline
  end.

(** The nesting the handler allows itself: one call more than [maxLevel]
    when it is a number; with [NaN] nothing stops the descent but the end
    of the tree, which is followed through as many levels as there are
    users. *)
Definition networkFuel (maxLevel : option Z) (db : Db) : nat :=
  match maxLevel with
  | Some m => S (Z.to_nat m)
  | None => S (length db)
  end.

Definition ambassadorView (u : User) : AmbassadorView :=
  mkAmbassadorView (_id u) (firstName u) (lastName u) (email u) (level u).

(** The handler.  [levels] is the query parameter after [parseInt]:
    [None] when the query has none (the default [3] is used), [Some None]
    when it does not start with a number. *)
Definition getNetwork (levels : option (option Z)) (reqUser : User) (db : Db)
    : Response * Db :=
  let maxLevel := default (Some 3) levels in
  match buildNetworkTree (networkFuel maxLevel db) db (_id reqUser) 0 maxLevel with
  | Some networkTree =>
      (Json 200 (NetworkData (ambassadorView reqUser) networkTree), db)
  | None => (NoResponse, db)
  end.

(** ** [DELETE /:userId] (user routes) *)

Definition userNotFound : Response :=
  Json 404 (Error "User not found" "Utente non trovato").
Definition hasDownline : Response :=
  Json 400 (Error "Cannot delete user with downline"
              "Impossibile eliminare un utente con downline").
Definition userDeleted : Response :=
  Json 200 (Deleted "User deleted successfully" "Utente eliminato con successo").

Definition deleteUser (userId : ObjectId) (db : Db) : Response * Db :=
  match findById userId db with
  | None => (userNotFound, db)
  | Some user =>
      if (0 <? length (downline user))%nat then (hasDownline, db)
      else (userDeleted, deleteOne userId db)
  end.

(** ** [PUT /profile/:userId] (user routes) *)

(** A value of the update document, by the schema type it can be cast to;
    [VDocument] is a nested object, as the argument of [$set]. *)
#[warnings="-register-all"]
Inductive Value :=
| VNull
| VString (s : string)
| VInteger (z : Z)
| VRational (q : Q)
| VBoolean (b : bool)
| VDate (t : Z)
| VObjectId (i : ObjectId)
| VObjectIds (l : list ObjectId)
| VAddress (a : Address)
| VDocument (fields : list (string * Value)).

(** The paths of the schema an update can assign. *)
Inductive Path :=
| p_email | p_password | p_firstName | p_lastName | p_phone | p_role
| p_status | p_sponsorId | p_upline | p_downline | p_level
| p_ambassadorCode | p_commissionRate | p_totalEarnings | p_clientCode
| p_totalPurchases | p_avatar | p_address | p_dateOfBirth | p_language
| p_timezone | p_lastLogin | p_emailVerified | p_phoneVerified.

Definition allPaths : list Path :=
  [p_email; p_password; p_firstName; p_lastName; p_phone; p_role;
   p_status; p_sponsorId; p_upline; p_downline; p_level;
   p_ambassadorCode; p_commissionRate; p_totalEarnings; p_clientCode;
   p_totalPurchases; p_avatar; p_address; p_dateOfBirth; p_language;
   p_timezone; p_lastLogin; p_emailVerified; p_phoneVerified].

Definition keyOf (p : Path) : string :=
  match p with
  | p_email => "email" | p_password => "password"
  | p_firstName => "firstName" | p_lastName => "lastName"
  | p_phone => "phone" | p_role => "role" | p_status => "status"
  | p_sponsorId => "sponsorId" | p_upline => "upline"
  | p_downline => "downline" | p_level => "level"
  | p_ambassadorCode => "ambassadorCode"
  | p_commissionRate => "commissionRate"
  | p_totalEarnings => "totalEarnings" | p_clientCode => "clientCode"
  | p_totalPurchases => "totalPurchases" | p_avatar => "avatar"
  | p_address => "address" | p_dateOfBirth => "dateOfBirth"
  | p_language => "language" | p_timezone => "timezone"
  | p_lastLogin => "lastLogin" | p_emailVerified => "emailVerified"
  | p_phoneVerified => "phoneVerified"
  end.

(** The schema path a key of the update names, if any. *)
Definition pathOf (key : string) : option Path :=
  find (fun p => String.eqb (keyOf p) key) allPaths.

Definition parseStatus (s : string) : option Status :=
  if String.eqb s "active" then Some active
  else if String.eqb s "inactive" then Some inactive
  else if String.eqb s "pending" then Some pending
  else None.

Definition parseLanguage (s : string) : option Language :=
  if String.eqb s "it" then Some it
  else if String.eqb s "en" then Some en
  else if String.eqb s "es" then Some es
  else if String.eqb s "fr" then Some fr
  else None.

(** Casts; [None] is a cast or validation error. *)
Definition asRequired (env : Env) (trimmed : bool) (v : Value)
    : option string :=
  match v with
  | VString s =>
      let s' := if trimmed then trim env s else s in
      if String.eqb s' EmptyString then None else Some s'
  | _ => None
  end.

Definition asOptional (env : Env) (trimmed : bool) (v : Value)
    : option (option string) :=
  match v with
  | VNull => Some None
  | VString s => Some (Some (if trimmed then trim env s else s))
  | _ => None
  end.

Definition asInteger (v : Value) : option Z :=
  match v with VInteger z => Some z | _ => None end.

Definition asDate (v : Value) : option (option Z) :=
  match v with
  | VNull => Some None
  | VDate t => Some (Some t)
  | _ => None
  end.

Definition asBoolean (v : Value) : option bool :=
  match v with VBoolean b => Some b | _ => None end.

Definition asIds (v : Value) : option (list ObjectId) :=
  match v with VObjectIds l => Some l | _ => None end.

(** Assigning one path ([$set]) with the casts, setters and validators of
    the schema ([runValidators: true]); hooks do not run on an update. *)
Definition setPath (env : Env) (p : Path) (v : Value) (u : User)
    : option User :=
  match p with
  | p_email =>
      s ← asRequired env true v; Some (set_email (toLowerCase env s) u)
  | p_password =>
      s ← asRequired env false v;
      if (6 <=? String.length s)%nat then Some (set_password s u) else None
  | p_firstName => s ← asRequired env true v; Some (set_firstName s u)
  | p_lastName => s ← asRequired env true v; Some (set_lastName s u)
  | p_phone => o ← asOptional env true v; Some (set_phone o u)
  | p_role =>
      match v with
      | VString s => r ← parseRole s; Some (set_role r u)
      | _ => None
      end
  | p_status =>
      match v with
      | VString s => r ← parseStatus s; Some (set_status r u)
      | _ => None
      end
  | p_sponsorId =>
      match v with
      | VNull => Some (set_sponsorId None u)
      | VObjectId i => Some (set_sponsorId (Some i) u)
      | _ => None
      end
  | p_upline => l ← asIds v; Some (set_upline l u)
  | p_downline => l ← asIds v; Some (set_downline l u)
  | p_level => z ← asInteger v; Some (set_level z u)
  | p_ambassadorCode => o ← asOptional env false v; Some (set_ambassadorCode o u)
  | p_commissionRate =>
      match v with
      | VInteger z =>
          if Qle_bool 0 (inject_Z z) && Qle_bool (inject_Z z) 1
          then Some (set_commissionRate (inject_Z z) u) else None
      | VRational q =>
          if Qle_bool 0 q && Qle_bool q 1
          then Some (set_commissionRate q u) else None
      | _ => None
      end
  | p_totalEarnings => z ← asInteger v; Some (set_totalEarnings z u)
  | p_clientCode => o ← asOptional env false v; Some (set_clientCode o u)
  | p_totalPurchases => z ← asInteger v; Some (set_totalPurchases z u)
  | p_avatar => o ← asOptional env false v; Some (set_avatar o u)
  | p_address =>
      match v with
      | VNull => Some (set_address None u)
      | VAddress a => Some (set_address (Some a) u)
      | _ => None
      end
  | p_dateOfBirth => d ← asDate v; Some (set_dateOfBirth d u)
  | p_language =>
      match v with
      | VString s => l ← parseLanguage s; Some (set_language l u)
      | _ => None
      end
  | p_timezone =>
      match v with
      | VString s => Some (set_timezone s u)
      | _ => None
      end
  | p_lastLogin => d ← asDate v; Some (set_lastLogin d u)
  | p_emailVerified => b ← asBoolean v; Some (set_emailVerified b u)
  | p_phoneVerified => b ← asBoolean v; Some (set_phoneVerified b u)
  end.

(** What Mongoose does with a key that starts with [$] (an update operator
    other than [$set]) or holds a dot (a path into a sub-document or an
    array): a parameter, since it is decided by the library. *)
Definition UpdateLibrary : Type := string -> Value -> User -> option User.

Definition isOperator (key : string) : bool :=
  match key with
  | String c _ => Ascii.eqb c "$"
  | EmptyString => false
  end.

Fixpoint isDotted (key : string) : bool :=
  match key with
  | String c rest => Ascii.eqb c "." || isDotted rest
  | EmptyString => false
  end.

(** One assignment [key: value]: a key that names a schema path sets it; a
    plain key that names none is dropped (strict mode). *)
Definition assignKey (env : Env) (library : UpdateLibrary)
    (entry : string * Value) (u : User) : option User :=
  if isOperator entry.1 || isDotted entry.1 then library entry.1 entry.2 u
  else
    match pathOf entry.1 with
    | Some p => setPath env p entry.2 u
    | None => Some u
    end.

(** One top-level entry of the update.  Mongoose wraps the plain keys in
    [$set]; a [$set] given by the caller is applied as well: each of its
    fields is an assignment.  A [$set] that is not an object throws. *)
Definition applyEntry (env : Env) (library : UpdateLibrary)
    (entry : string * Value) (u : User) : option User :=
  if String.eqb entry.1 "$set" then
    match entry.2 with
    | VDocument fields =>
        foldr (fun field acc => acc ≫= assignKey env library field) (Some u)
          fields
    | _ => None
    end
  else assignKey env library entry u.

(** The whole update document applied to one user. *)
Definition applyUpdate (env : Env) (library : UpdateLibrary)
    (updateData : gmap string Value) (u : User) : option User :=
  foldr (fun entry acc => acc ≫= applyEntry env library entry) (Some u)
    (map_to_list updateData).

(** The unique indexes, for a document that replaces a stored one. *)
Definition indexClash (doc : User) (others : Db) : bool :=
  existsb (fun u =>
             String.eqb (email u) (email doc)
             || sparse_clash (ambassadorCode u) (ambassadorCode doc)
             || sparse_clash (clientCode u) (clientCode doc)) others.

(** [findByIdAndUpdate(userId, updateData, { new: true, runValidators:
    true })]: [None] when it throws, otherwise the updated document (if a
    user has this id) and the collection. *)
Definition findByIdAndUpdate (env : Env) (library : UpdateLibrary)
    (userId : ObjectId) (updateData : gmap string Value) (db : Db)
    : option (option User * Db) :=
  match findById userId db with
  | None => Some (None, db)
  | Some u =>
      match applyUpdate env library updateData u with
      | None => None
      | Some u' =>
          let u'' := set_updatedAt (now env) u' in
          if indexClash u'' (deleteOne userId db) then None
          else Some (Some u'', updateOne userId (fun _ => u'') db)
      end
  end.

(** The eleven [delete updateData.<key>] statements, in their order. *)
Definition stripSensitive (updateData : gmap string Value)
    : gmap string Value :=
  delete "totalPurchases"
    (delete "totalEarnings"
       (delete "level"
          (delete "downline"
             (delete "upline"
                (delete "sponsorId"
                   (delete "clientCode"
                      (delete "ambassadorCode"
                         (delete "status"
                            (delete "role"
                               (delete "password" updateData)))))))))).

Definition accessDenied : Response :=
  Json 403 (Error "Access denied" "Accesso negato").
Definition updateFailed : Response :=
  Json 500 (Error "Failed to update profile"
              "Impossibile aggiornare il profilo").

(** The handler, for the authenticated user [reqUser]. *)
Definition updateProfile (env : Env) (library : UpdateLibrary)
    (reqUser : User) (userId : ObjectId) (updateData : gmap string Value)
    (db : Db) : Response * Db :=
  if negb (Nat.eqb (_id reqUser) userId)
     && negb (bool_decide (role reqUser = admin))
  then (accessDenied, db)
  else
    let updateData := stripSensitive updateData in
    match findByIdAndUpdate env library userId updateData db with
    | None => (updateFailed, db)
    | Some (None, db') => (userNotFound, db')
    | Some (Some user, db') =>
        (* .select('-password') *)
        (Json 200 (ProfileUpdated "Profile updated successfully"
                     "Profilo aggiornato con successo"
                     (set_password EmptyString user)), db')
    end.

(** ** [PUT /:userId/status] (user routes) *)

Definition invalidStatus : Response :=
  Json 400 (Error "Invalid status" "Stato non valido").
Definition statusFailed : Response :=
  Json 500 (Error "Failed to update status" "Impossibile aggiornare lo stato").

(** The handler, behind [authorizeRoles('admin')].  [status] is the field
    of the body, if it has one.  The update runs without
    [runValidators]; a value that passed the [includes] test is one the
    enum validator accepts. *)
Definition updateStatus (env : Env) (library : UpdateLibrary)
    (userId : ObjectId) (status : option Value) (db : Db) : Response * Db :=
  match status with
  | Some (VString s) =>
      if existsb (String.eqb s) ["active"; "inactive"; "pending"] then
        match findByIdAndUpdate env library userId
                {[ "status" := VString s ]} db with
        | None => (statusFailed, db)
        | Some (None, db') => (userNotFound, db')
        | Some (Some user, db') =>
            (* .select('-password') *)
            (Json 200 (ProfileUpdated "User status updated successfully"
                         "Stato utente aggiornato con successo"
                         (set_password EmptyString user)), db')
        end
      else (invalidStatus, db)
  | _ => (invalidStatus, db)
  end.

(** ** [PUT /change-password/:userId] (user routes) *)

Inductive PasswordResponse :=
| PasswordError (status : Z) (error message : string)
| PasswordChanged (message message_it : string).

Definition passwordDenied : PasswordResponse :=
  PasswordError 403 "Access denied" "Accesso negato".
Definition passwordsRequired : PasswordResponse :=
  PasswordError 400 "Current and new password required"
    "Password attuale e nuova password richieste".
Definition passwordUserNotFound : PasswordResponse :=
  PasswordError 404 "User not found" "Utente non trovato".
Definition passwordIncorrect : PasswordResponse :=
  PasswordError 400 "Current password is incorrect"
    "Password attuale non corretta".
Definition passwordFailed : PasswordResponse :=
  PasswordError 500 "Failed to change password"
    "Impossibile cambiare la password".
Definition passwordChanged : PasswordResponse :=
  PasswordChanged "Password changed successfully"
    "Password cambiata con successo".

(** [user.password = newPassword; user.save()] on a stored user.  A value
    equal to the stored one modifies nothing, and nothing is written.
    Otherwise the [minlength] validator runs on the new value ([None] when
    it throws) and the first [pre('save')] hook stores its digest. *)
Definition savePassword (env : Env) (user : User) (newPassword : string)
    (db : Db) : option Db :=
  if String.eqb newPassword (password user) then Some db
  else if (6 <=? String.length newPassword)%nat then
    Some (saveChange env (_id user) (set_password (bcrypt env newPassword)) db)
  else None.

(** The handler, for the authenticated user [reqUser]. *)
Definition changePassword (env : Env)
    (bcryptCompare : string -> string -> bool) (reqUser : User)
    (userId : ObjectId) (currentPassword newPassword : option string)
    (db : Db) : PasswordResponse * Db :=
  if negb (Nat.eqb (_id reqUser) userId)
     && negb (bool_decide (role reqUser = admin))
  then (passwordDenied, db)
  else if negb (Str.truthy currentPassword) || negb (Str.truthy newPassword)
  then (passwordsRequired, db)
  else
    match currentPassword, newPassword with
    | Some current, Some new =>
        match findById userId db with
        | None => (passwordUserNotFound, db)
        | Some user =>
            if negb (bool_decide (role reqUser = admin))
               && negb (comparePassword bcryptCompare current user)
            then (passwordIncorrect, db)
            else
              match savePassword env user new db with
              | Some db' => (passwordChanged, db')
              | None => (passwordFailed, db)
              end
        end
    | _, _ => (passwordsRequired, db)
    end.

(** ** Vocabulary of the statements *)

(** The stored users whose sponsor is [id]. *)
Definition directChildren (id : ObjectId) (db : Db) : list User :=
  List.filter (sponsoredBy id) db.

Definition sumZ (l : list Z) : Z := foldr Z.add 0 l.

(** The network view: children, id and height of a node; the height of an
    empty list of nodes is 0. *)
Definition childrenOf (n : NetworkNode) : list NetworkNode :=
  match n with
  | mkNetworkNode _ _ _ _ _ _ _ _ children => children
  end.

Definition nodeId (n : NetworkNode) : ObjectId :=
  match n with
  | mkNetworkNode id _ _ _ _ _ _ _ _ => id
  end.

Fixpoint height (n : NetworkNode) : nat :=
  match n with
  | mkNetworkNode _ _ _ _ _ _ _ _ children =>
      S (max_list (map height children))
  end.

Definition forestHeight (l : list NetworkNode) : nat :=
  max_list (map height l).



(** The view the specification describes for [materialize]: with a
    remaining budget of 0 levels nothing is listed; with one more, the
    direct downline, newest first, each with the view of one level less. *)
Fixpoint networkView (db : Db) (budget : nat) (userId : ObjectId)
    : list NetworkNode :=
  match budget with
  | O => []
  | S budget' =>
      map (fun member =>
             networkNode member (networkView db budget' (_id member)))
        (sortBy newestFirst (directChildren userId db))
  end.

(** A registration request with another sponsor code. *)
Definition withSponsorCode (sponsorCode : option string)
    (body : RegisterBody) : RegisterBody :=
  mkRegisterBody (req_email body) (req_password body) (req_firstName body)
    (req_lastName body) (req_phone body) (req_role body) sponsorCode.

(** Writes that leave the identity of a user alone: id, email, place in
    the tree and codes. *)
Definition keepsIdentity (f : User -> User) : Prop :=
  forall u, _id (f u) = _id u /\ email (f u) = email u /\
            level (f u) = level u /\ sponsorId (f u) = sponsorId u /\
            ambassadorCode (f u) = ambassadorCode u /\
            clientCode (f u) = clientCode u.

(** A sequence of [updateOne], the last of the list first. *)
Definition applyWrites (writes : list (ObjectId * (User -> User))) (db : Db)
    : Db :=
  foldr (fun w acc => updateOne w.1 w.2 acc) db writes.

(** Stored emails are in lower case, and no two are equal up to case, for
    the [toLowerCase] of the environment. *)
Definition emailsNormalised (env : Env) (db : Db) : Prop :=
  Forall (fun e => toLowerCase env e = e) (map email db).

Definition emailsUnique (env : Env) (db : Db) : Prop :=
  NoDup (map (toLowerCase env) (map email db)).

(** The codes in use, ambassador and client codes together. *)
Definition codesOf (u : User) : list string :=
  option_list (ambassadorCode u) ++ option_list (clientCode u).

Definition allCodes (db : Db) : list string := concat (map codesOf db).

Definition codesUnique (db : Db) : Prop := NoDup (allCodes db).

(** The paths [PUT /profile/:userId] deletes from the update, and what it
    means for two versions of a user to agree on them. *)
Definition sensitivePaths : list Path :=
  [p_password; p_role; p_status; p_ambassadorCode; p_clientCode;
   p_sponsorId; p_upline; p_downline; p_level; p_totalEarnings;
   p_totalPurchases].

Definition sameSensitive (u u' : User) : Prop :=
  password u' = password u /\ role u' = role u /\ status u' = status u /\
  ambassadorCode u' = ambassadorCode u /\ clientCode u' = clientCode u /\
  sponsorId u' = sponsorId u /\ upline u' = upline u /\
  downline u' = downline u /\ level u' = level u /\
  totalEarnings u' = totalEarnings u /\ totalPurchases u' = totalPurchases u.

(** A user without the two stamps a login writes. *)
Definition withoutStamps (u : User) : User :=
  set_lastLogin None (set_updatedAt 0 u).

(** Decimal digits. *)
Definition isDigit (c : ascii) : bool :=
  ((48 <=? nat_of_ascii c)%nat && (nat_of_ascii c <=? 57)%nat)%bool.

Fixpoint allDigits (s : string) : bool :=
  match s with
  | EmptyString => true
  | String c rest => isDigit c && allDigits rest
  end.

(** ** Well-formed sponsor trees *)

(** The stored sponsor of a user, if it has one. *)
Definition sponsorOf (db : Db) (u : User) : option User :=
  match sponsorId u with
  | Some sid => findById sid db
  | None => None
  end.

(** The [_id] index. *)
Definition idsUnique (db : Db) : Prop := NoDup (map _id db).

(** Every [sponsorId] is the id of a stored user. *)
Definition sponsorsStored (db : Db) : Prop :=
  forall u sid, In u db -> sponsorId u = Some sid -> is_Some (findById sid db).

(** [downline] lists the users sponsored, in the order they were stored. *)
Definition downlineInverse (db : Db) : Prop :=
  forall s, In s db -> downline s = map _id (directChildren (_id s) db).

(** [level] is the sponsor's level plus 1, and 0 without sponsor. *)
Definition levelsFollow (db : Db) : Prop :=
  forall u, In u db ->
    level u = match sponsorOf db u with
              | Some s => level s + 1
              | None => 0
              end.

(** [upline] is what the walk of [POST /register] records: the sponsor's
    sponsor, then the sponsor's upline. *)
Definition uplinesFollow (db : Db) : Prop :=
  forall u, In u db ->
    upline u = match sponsorOf db u with
               | Some s => option_list (sponsorId s) ++ upline s
               | None => []
               end.

Definition treeOk (db : Db) : Prop :=
  idsUnique db /\ sponsorsStored db /\ downlineInverse db /\
  levelsFollow db /\ uplinesFollow db.

(** What a registration does to a stored user: the sponsor gets the new id
    at the end of its downline and a new [updatedAt]. *)
Definition linked (env : Env) (sponsor : option User) (u : User) : User :=
  match sponsor with
  | Some sp =>
      if Nat.eqb (_id u) (_id sp)
      then set_updatedAt (now env)
             (set_downline (downline sp ++ [newObjectId env]) u)
      else u
  | None => u
  end.

(** A user without what a status update writes, and without what a
    password change writes. *)
Definition withoutStatus (u : User) : User :=
  set_status pending (set_updatedAt 0 u).

Definition withoutPassword (u : User) : User :=
  set_password EmptyString (set_updatedAt 0 u).

(** The unique indexes hold: ids, emails, and the two code fields. *)
Definition indexesHold (db : Db) : Prop :=
  idsUnique db /\ NoDup (map email db) /\
  NoDup (omap ambassadorCode db) /\ NoDup (omap clientCode db).

(** ** A registration chain A <- B <- C <- D

    Four registrations on an empty collection: A without sponsor, B with
    A's code, C with B's code, D with C's code.  The ids are 1 to 4. *)

Module Chain.

(** The environment of the n-th request.  The strings of the examples are
    ASCII, where [Str.lowerASCII] and [Str.trimASCII] are what the
    built-ins compute. *)
Definition env (n : nat) : Env :=
  {| newObjectId := n;
     now := Z.of_nat n * 1000;
     random := fun k => (N.of_nat (n + k) * 2 ^ 40)%N;
     attempts := 8;
     bcrypt := fun p => "$2b$12$" +:+ p;
     toLowerCase := Str.lowerASCII;
     trim := Str.trimASCII |}.

Definition body (e r : string) (sponsorCode : option string)
    : RegisterBody :=
  {| req_email := Some e;
     req_password := Some "secret1";
     req_firstName := Some "Anna";
     req_lastName := Some "Rossi";
     req_phone := None;
     req_role := Some r;
     req_sponsorCode := sponsorCode |}.

Definition a : ObjectId := 1%nat.
Definition b : ObjectId := 2%nat.
Definition c : ObjectId := 3%nat.
Definition d : ObjectId := 4%nat.

Definition db1 : Db :=
  (register (env a) (body "a@example.com" "ambassador" None) []).2.
Definition db2 : Db :=
  (register (env b) (body "b@example.com" "ambassador" (Some "AMB000122"))
     db1).2.
Definition db3 : Db :=
  (register (env c) (body "c@example.com" "ambassador" (Some "AMB000244"))
     db2).2.
Definition bodyD : RegisterBody :=
  body "d@example.com" "client" (Some "AMB000366").
Definition db4 : Db := (register (env d) bodyD db3).2.

(** The earnings of B, C and D are set to 10 by events outside the
    routes modelled here. *)
Definition credited : Db :=
  updateOne d (set_totalEarnings 10)
    (updateOne c (set_totalEarnings 10)
       (updateOne b (set_totalEarnings 10) db4)).

(** The user a request by [id] is authenticated as. *)
Definition userOf (id : ObjectId) (db : Db) : User :=
  default (newUser (env id) EmptyString EmptyString EmptyString EmptyString None client None) (findById id db).

End Chain.

(** ** More scenarios on the chain *)

Module Scenario.


(** [bcrypt.compare] for the digests of [Chain.env]. *)
Definition bcryptCompare (candidate digest : string) : bool :=
  String.eqb digest ("$2b$12$" +:+ candidate).

(** The chain after an admin sets B active. *)
Definition activated : Db :=
  (updateStatus (Chain.env 6%nat) (fun _ _ u => Some u) Chain.b
     (Some (VString "active")) Chain.db4).2.

Definition loginB : LoginBody :=
  {| login_email := Some "B@example.com";
     login_password := Some "secret1";
     login_rememberMe := true |}.

Definition loginD : LoginBody :=
  {| login_email := Some "d@example.com";
     login_password := Some "secret1";
     login_rememberMe := false |}.

End Scenario.

(** * Properties *)

(** ** The collection operations *)

Section DbFacts.

Lemma findOne_none (p : User -> bool) (db : Db) :
  findOne p db = None <-> (forall u, In u db -> p u = false).
Proof.
  unfold findOne. split.
  - intros H u Hu. exact (find_none p db H u Hu).
  - induction db as [|x rest IH]; intros H; [reflexivity|].
    cbn. rewrite (H x (or_introl eq_refl)).
    apply IH. intros u Hu. apply H. now right.
Qed.

Lemma findOne_some (p : User -> bool) (db : Db) (u : User) :
  findOne p db = Some u -> In u db /\ p u = true.
Proof. unfold findOne. apply find_some. Qed.

Lemma findById_id (id : ObjectId) (db : Db) (u : User) :
  findById id db = Some u -> _id u = id.
Proof.
  intros H. apply findOne_some in H as [_ H]. now apply Nat.eqb_eq in H.
Qed.

Lemma findById_app_new (id : ObjectId) (db : Db) (doc : User) :
  findById id db = None -> _id doc = id -> findById id (db ++ [doc]) = Some doc.
Proof.
  intros Hn Hid. unfold findById, findOne in *.
  induction db as [|x rest IH]; cbn in *.
  - now rewrite Hid, Nat.eqb_refl.
  - destruct (Nat.eqb (_id x) id); [discriminate|]. now apply IH.
Qed.

Lemma findById_app_old (id : ObjectId) (db : Db) (doc u : User) :
  findById id db = Some u -> findById id (db ++ [doc]) = Some u.
Proof.
  unfold findById, findOne.
  induction db as [|x rest IH]; cbn; [discriminate|].
  destruct (Nat.eqb (_id x) id); auto.
Qed.

(** Reading after [updateOne], for a change that keeps the [_id]. *)
Lemma findById_updateOne (id id' : ObjectId) (f : User -> User) (db : Db) :
  (forall u, _id (f u) = _id u) ->
  findById id (updateOne id' f db)
  = (if Nat.eqb id id' then f else fun u => u) <$> findById id db.
Proof.
  intros Hf. unfold findById, findOne.
  induction db as [|x rest IH]; cbn; [reflexivity|].
  destruct (Nat.eqb (_id x) id') eqn:E'; cbn.
  - rewrite Hf. destruct (Nat.eqb (_id x) id) eqn:E; cbn.
    + apply Nat.eqb_eq in E, E'. subst.
      now rewrite Nat.eqb_refl.
    + apply Nat.eqb_eq in E'. subst id'. rewrite Nat.eqb_sym, E.
      now destruct (find _ rest).
  - destruct (Nat.eqb (_id x) id) eqn:E; cbn.
    + apply Nat.eqb_eq in E. subst. rewrite E'. reflexivity.
    + apply IH.
Qed.

Lemma length_updateOne (id : ObjectId) (f : User -> User) (db : Db) :
  length (updateOne id f db) = length db.
Proof.
  induction db as [|x rest IH]; cbn; [reflexivity|].
  destruct (Nat.eqb (_id x) id); cbn; congruence.
Qed.

(** A change that keeps a path keeps the column of that path. *)
Lemma map_updateOne {A : Type} (g : User -> A) (id : ObjectId)
    (f : User -> User) (db : Db) :
  (forall u, g (f u) = g u) -> map g (updateOne id f db) = map g db.
Proof.
  intros Hf. induction db as [|x rest IH]; cbn; [reflexivity|].
  destruct (Nat.eqb (_id x) id); cbn; [now rewrite Hf | now rewrite IH].
Qed.

Lemma findById_deleteOne_other (id id' : ObjectId) (db : Db) :
  id <> id' -> findById id (deleteOne id' db) = findById id db.
Proof.
  intros Hne. unfold findById, findOne.
  induction db as [|x rest IH]; cbn; [reflexivity|].
  destruct (Nat.eqb (_id x) id') eqn:E'; cbn.
  - apply Nat.eqb_eq in E'.
    destruct (Nat.eqb (_id x) id) eqn:E; [|reflexivity].
    apply Nat.eqb_eq in E. congruence.
  - destruct (Nat.eqb (_id x) id); [reflexivity | apply IH].
Qed.

Lemma findById_deleteOne_same (id : ObjectId) (db : Db) :
  NoDup (map _id db) -> findById id (deleteOne id db) = None.
Proof.
  unfold findById. intros Hnd. apply findOne_none. intros u Hu.
  induction db as [|x rest IH]; cbn in *; [contradiction|].
  inversion Hnd as [|? ? Hx Hrest]; subst.
  destruct (Nat.eqb (_id x) id) eqn:E.
  - apply Nat.eqb_eq in E. apply Nat.eqb_neq. intros Hu'.
    apply Hx. rewrite E, <- Hu'. apply list_elem_of_In. now apply in_map.
  - destruct Hu as [-> | Hu]; [exact E | now apply IH].
Qed.

Lemma length_deleteOne (id : ObjectId) (db : Db) (u : User) :
  findById id db = Some u -> length db = S (length (deleteOne id db)).
Proof.
  unfold findById, findOne.
  induction db as [|x rest IH]; cbn; [discriminate|].
  destruct (Nat.eqb (_id x) id); cbn; [reflexivity|].
  intros H. now rewrite (IH H).
Qed.

End DbFacts.

(** ** Strings *)

Lemma lower_ascii_idem c : Str.lower_ascii (Str.lower_ascii c) = Str.lower_ascii c.
Proof. destruct c as [[] [] [] [] [] [] [] []]; reflexivity. Qed.

Lemma lowerASCII_idem s :
  Str.lowerASCII (Str.lowerASCII s) = Str.lowerASCII s.
Proof. induction s as [|c r IH]; cbn; [reflexivity|]. now rewrite lower_ascii_idem, IH. Qed.

Lemma truthy_some o : Str.truthy o = true -> exists s, o = Some s /\ s <> EmptyString.
Proof.
  destruct o as [s|]; cbn; [|discriminate].
  intros H. exists s. split; [reflexivity|].
  intros ->. discriminate.
Qed.

(** ** Saving documents *)

Lemma findById_updateOne_same id f db u :
  findById id db = Some u -> _id (f u) = id ->
  findById id (updateOne id f db) = Some (f u).
Proof.
  unfold findById, findOne. intros H Hf.
  induction db as [|x rest IH]; cbn in *; [discriminate|].
  destruct (Nat.eqb (_id x) id) eqn:E; cbn.
  - injection H as ->. now rewrite Hf, Nat.eqb_refl.
  - rewrite E. now apply IH.
Qed.

Lemma set_codes_same doc :
  set_clientCode (clientCode doc) (set_ambassadorCode (ambassadorCode doc) doc) = doc.
Proof. now destruct doc. Qed.

Lemma assignCodes_shape env doc db doc' :
  assignCodes env doc db = Some doc' ->
  exists a c, doc' = set_clientCode c (set_ambassadorCode a doc).
Proof.
  unfold assignCodes. intros H.
  destruct (bool_decide (role doc = ambassador) && _).
  - destruct (generateUniqueCode env 0 db "AMB") as [[code k]|]; [|discriminate].
    destruct (bool_decide _ && _).
    + destruct (generateUniqueCode env k db "CLI") as [[code' k']|]; [|discriminate].
      injection H as <-. eexists _, _. now destruct doc.
    + injection H as <-. exists (Some code), (clientCode doc). now destruct doc.
  - destruct (bool_decide _ && _).
    + destruct (generateUniqueCode env 0 db "CLI") as [[code' k']|]; [|discriminate].
      injection H as <-. exists (ambassadorCode doc). eexists. now destruct doc.
    + injection H as <-. exists (ambassadorCode doc), (clientCode doc).
      now rewrite set_codes_same.
Qed.

Lemma existsb_false {A : Type} (f : A -> bool) (l : list A) :
  existsb f l = false -> forall x, In x l -> f x = false.
Proof.
  intros H x Hx. destruct (f x) eqn:E; [|reflexivity].
  rewrite <- H. symmetry. apply existsb_exists. eauto.
Qed.

Lemma duplicateKey_false doc db :
  duplicateKey doc db = false ->
  findById (_id doc) db = None /\ ~ In (email doc) (map email db).
Proof.
  unfold duplicateKey. intros H. split.
  - apply findOne_none. intros u Hu.
    apply (existsb_false _ _ H) in Hu.
    now repeat (apply orb_false_elim in Hu as [Hu _]).
  - intros Hin. apply in_map_iff in Hin as (u & He & Hu).
    apply (existsb_false _ _ H) in Hu.
    rewrite He, String.eqb_refl in Hu.
    now rewrite orb_true_r in Hu.
Qed.

Lemma saveNew_saved env doc db user db1 :
  saveNew env doc db = Saved user db1 ->
  db1 = db ++ [user] /\ duplicateKey user db = false /\
  exists a c, user = set_clientCode c (set_ambassadorCode a
                        (set_password (bcrypt env (password doc)) doc)).
Proof.
  unfold saveNew, insertOne. intros H.
  repeat case_match; simplify_eq.
  repeat split; try assumption.
  eapply assignCodes_shape; eassumption.
Qed.

(** ** Registration: what a request can write *)

Lemma keepsIdentity_touch t (f : User -> User) :
  keepsIdentity f -> keepsIdentity (fun u => set_updatedAt t (f u)).
Proof. intros H u. destruct (H u) as (?&?&?&?&?&?). now destruct (f u). Qed.

Lemma keepsIdentity_downline l : keepsIdentity (set_downline l).
Proof. intros u. now destruct u. Qed.
Lemma keepsIdentity_upline l : keepsIdentity (set_upline l).
Proof. intros u. now destruct u. Qed.
Lemma keepsIdentity_lastLogin l : keepsIdentity (set_lastLogin l).
Proof. intros u. now destruct u. Qed.

Lemma register_inv env body db r db' :
  register env body db = (r, db') ->
  (db' = db /\ statusOf r <> Some 201) \/
  exists e p fn ln sponsor ro user writes,
    req_email body = Some e /\ req_password body = Some p /\
    req_firstName body = Some fn /\ req_lastName body = Some ln /\
    findByEmail env e db = None /\
    resolveSponsor (req_sponsorCode body) db = Some sponsor /\
    saveNew env (newUser env e p fn ln (req_phone body) ro sponsor) db
      = Saved user (db ++ [user]) /\
    db' = applyWrites writes (db ++ [user]) /\
    Forall (fun w => keepsIdentity w.2) writes.
Proof.
  unfold register. intros H.
  destruct (negb _); [left; now simplify_eq|].
  destruct (req_email body) as [e|]; [|left; now simplify_eq].
  destruct (req_password body) as [p|]; [|left; now simplify_eq].
  destruct (req_firstName body) as [fn|]; [|left; now simplify_eq].
  destruct (req_lastName body) as [ln|]; [|left; now simplify_eq].
  destruct (findByEmail env e db) eqn:Hemail; [left; now simplify_eq|].
  destruct (resolveSponsor _ db) as [sponsor|] eqn:Hsp; [|left; now simplify_eq].
  destruct (parseRole _) as [ro|]; [|left; now simplify_eq].
  destruct (saveNew _ _ db) as [user db1| |] eqn:Hsave;
    [|left; now simplify_eq|left; now simplify_eq].
  right. destruct (saveNew_saved _ _ _ _ _ Hsave) as (-> & _ & _).
  exists e, p, fn, ln, sponsor, ro, user.
  unfold registerFinish, saveChange in H.
  destruct sponsor as [sp|].
  - destruct (buildUpline _ _ _ _) as [up|]; simplify_eq.
    + eexists [(_, _); (_, _); (_, _)]. cbn.
      split_and!; try reflexivity; try assumption.
      repeat apply Forall_cons_2; try apply Forall_nil_2; cbn;
        apply keepsIdentity_touch;
        auto using keepsIdentity_downline, keepsIdentity_upline,
          keepsIdentity_lastLogin.
    + eexists [(_, _)]. cbn. split_and!; try reflexivity; try assumption.
      repeat apply Forall_cons_2; try apply Forall_nil_2; cbn;
        apply keepsIdentity_touch; auto using keepsIdentity_downline.
  - simplify_eq. eexists [(_, _)]. cbn.
    split_and!; try reflexivity; try assumption.
    repeat apply Forall_cons_2; try apply Forall_nil_2; cbn;
      apply keepsIdentity_touch; auto using keepsIdentity_lastLogin.
Qed.

Lemma applyWrites_cons id f writes db :
  applyWrites ((id, f) :: writes) db = updateOne id f (applyWrites writes db).
Proof. reflexivity. Qed.

Lemma applyWrites_find writes db id u :
  Forall (fun w => keepsIdentity w.2) writes ->
  findById id db = Some u ->
  exists u', findById id (applyWrites writes db) = Some u' /\
             level u' = level u /\ sponsorId u' = sponsorId u.
Proof.
  intros Hw Hu. induction Hw as [|[id' f] ws Hf _ IH].
  - cbn. eauto.
  - destruct IH as (u1 & H1 & Hl & Hs).
    rewrite applyWrites_cons.
    rewrite findById_updateOne by (intros v; apply Hf).
    rewrite H1. cbn. eexists. split; [reflexivity|].
    destruct (Nat.eqb id id'); [|auto].
    destruct (Hf u1) as (_ & _ & Hl' & Hs' & _). cbn in *. split; congruence.
Qed.

Lemma applyWrites_column {A : Type} (g : User -> A) writes db :
  Forall (fun w => forall u, g (w.2 u) = g u) writes ->
  map g (applyWrites writes db) = map g db.
Proof.
  intros Hw. induction Hw as [|[id' f] ws Hf _ IH]; [reflexivity|].
  rewrite applyWrites_cons. now rewrite map_updateOne.
Qed.

Lemma findByEmail_some env e db u :
  In u db -> email u = toLowerCase env e -> exists v, findByEmail env e db = Some v.
Proof.
  intros Hin He. destruct (findByEmail env e db) as [v|] eqn:E; [eauto|].
  apply findOne_none with (u := u) in E; [|exact Hin].
  cbn in E. rewrite He, String.eqb_refl in E. discriminate.
Qed.

Lemma register_existing env body db e u :
  req_email body = Some e -> In u db -> email u = toLowerCase env e ->
  exists err msg, register env body db = (Json 400 (Error err msg), db).
Proof.
  intros He Hin Hu. unfold register.
  destruct (negb _) eqn:Ht; [unfold missingFields; eauto|].
  rewrite He.
  destruct (req_password body), (req_firstName body), (req_lastName body);
    try (unfold missingFields; eauto; fail).
  destruct (findByEmail_some env e db u Hin Hu) as [v ->].
  unfold userExists; eauto.
Qed.

(** ** Upline and level at registration *)

Lemma resolveSponsor_truthy sc db sponsor :
  resolveSponsor sc db = Some sponsor ->
  if Str.truthy sc
  then exists code s, sc = Some code /\ sponsor = Some s /\ findByCode code db = Some s
  else sponsor = None.
Proof.
  unfold resolveSponsor. destruct sc as [code|]; [|now intros [= <-]].
  destruct (Str.truthy (Some code)).
  - destruct (findByCode code db) as [s|] eqn:E; [|discriminate].
    intros [= <-]. eauto.
  - now intros [= <-].
Qed.









Lemma buildUpline_fuel fuel fuel' db cur acc up :
  (fuel <= fuel')%nat ->
  buildUpline fuel db cur acc = Some up ->
  buildUpline fuel' db cur acc = Some up.
Proof.
  revert fuel' cur acc. induction fuel as [|fuel IH];
    intros fuel' cur acc Hle; cbn; [discriminate|].
  destruct fuel' as [|fuel']; [lia|]. cbn.
  destruct (sponsorId cur) as [sid|]; [|auto].
  destruct (findById sid db) as [next|]; [|auto].
  apply IH. lia.
Qed.

(** The first id the walk records is the sponsor's own sponsor: the
    sponsor's id is never put in the list. *)
Lemma buildUpline_first (fuel : nat) (db : Db) (sp : User)
    (up : list ObjectId) :
  buildUpline fuel db sp [] = Some up ->
  match sponsorId sp with
  | None => up = []
  | Some above => exists rest, up = above :: rest
  end.
Proof.
  assert (Hacc : forall n cur acc res,
             buildUpline n db cur acc = Some res ->
             exists more, res = acc ++ more).
  { induction n as [|n IH]; intros cur acc res; cbn; [discriminate|].
    destruct (sponsorId cur) as [sid|].
    - destruct (findById sid db) as [next|].
      + intros H. apply IH in H as [more ->].
        exists (sid :: more). now rewrite <- app_assoc.
      + intros [= <-]. eauto.
    - intros [= <-]. exists []. now rewrite app_nil_r. }
  destruct fuel as [|fuel]; cbn; [discriminate|].
  destruct (sponsorId sp) as [above|]; [|now intros [= <-]].
  destruct (findById above db) as [next|].
  - intros H. apply Hacc in H as [more ->]. eauto.
  - intros [= <-]. eauto.
Qed.

(** The links stored by the four registrations: id, sponsor, upline,
    downline and level of A, B, C and D. *)
Example chain_links :
  map (fun u => (_id u, sponsorId u, upline u, downline u, level u)) Chain.db4
  = [(1%nat, None, [], [2%nat], 0);
     (2%nat, Some 1%nat, [], [3%nat], 1);
     (3%nat, Some 2%nat, [1%nat], [4%nat], 2);
     (4%nat, Some 3%nat, [2%nat; 1%nat], [], 3)].
Proof. vm_compute. reflexivity. Qed.

(** C1.  What the code stores on the chain A <- B <- C <- D: the upline of
    D is [[B; A]], not [[C; B; A]], and that of C is [[A]]; the walk starts
    at the sponsor and records [currentSponsor.sponsorId], so the sponsor
    itself is left out.  D's sponsor is C, and the root A has an empty
    upline. *)
Theorem chain_upline_omits_sponsor :
  upline <$> findById Chain.d Chain.db4 = Some [Chain.b; Chain.a] /\
  upline <$> findById Chain.c Chain.db4 = Some [Chain.a] /\
  sponsorId <$> findById Chain.d Chain.db4 = Some (Some Chain.c) /\
  upline <$> findById Chain.a Chain.db4 = Some [].
Proof. vm_compute. repeat split. Qed.

(** C6.  A registration that answers 201 stores the new user under the
    fresh id; with a sponsor code (a non-empty string) the code resolves to
    a stored sponsor and the new level is the sponsor's level plus 1;
    without one the user has no sponsor and level 0.  On the chain
    A <- B <- C <- D the level of D is 3. *)
Theorem register_level :
  (forall env body db r db',
     register env body db = (r, db') -> statusOf r = Some 201 ->
     exists user,
       findById (newObjectId env) db' = Some user /\
       (Str.truthy (req_sponsorCode body) = true ->
        exists code sponsor,
          req_sponsorCode body = Some code /\
          findByCode code db = Some sponsor /\
          sponsorId user = Some (_id sponsor) /\
          level user = level sponsor + 1) /\
       (Str.truthy (req_sponsorCode body) = false ->
        sponsorId user = None /\ level user = 0)) /\
  level <$> findById Chain.d Chain.db4 = Some 3 /\
  map level Chain.db4 = [0; 1; 2; 3].
Proof.
  split; [|vm_compute; split; reflexivity].
  intros env body db r db'.
  intros H Hr. apply register_inv in H as [[_ Hne] | H]; [congruence|].
  destruct H as (e & p & fn & ln & sponsor & ro & user & writes & _ & _ & _ & _
                 & _ & Hsp & Hsave & -> & Hw).
  apply saveNew_saved in Hsave as (_ & Hdup & a & c & Huser).
  apply duplicateKey_false in Hdup as [Hfresh _].
  assert (Hid : _id user = newObjectId env) by (subst user; reflexivity).
  assert (Hl : level user = match sponsor with Some s => level s + 1 | None => 0 end)
    by (subst user; reflexivity).
  assert (Hs : sponsorId user = _id <$> sponsor) by (subst user; reflexivity).
  rewrite Hid in Hfresh.
  destruct (applyWrites_find writes (db ++ [user]) (newObjectId env) user Hw
              (findById_app_new _ _ _ Hfresh Hid)) as (u' & Hu' & Hl' & Hs').
  exists u'. split; [exact Hu'|].
  apply resolveSponsor_truthy in Hsp.
  split; intros Ht; rewrite Ht in Hsp.
  - destruct Hsp as (code & s & Hc & -> & Hf). cbn in Hs.
    exists code, s. split_and!; auto; congruence.
  - subst sponsor. cbn in Hs. split; congruence.
Qed.

Lemma register_level_witness :
  exists user,
    findById Chain.d Chain.db4 = Some user /\ level user = 3.
Proof.
  destruct (proj1 register_level (Chain.env Chain.d) Chain.bodyD Chain.db3
              (register (Chain.env Chain.d) Chain.bodyD Chain.db3).1
              Chain.db4)
    as (user & Hfind & Hwith & _).
  - unfold Chain.db4. apply surjective_pairing.
  - vm_compute. reflexivity.
  - exists user. split; [exact Hfind|].
    destruct Hwith as (code & sponsor & Hcode & Hsp & _ & Hl);
      [vm_compute; reflexivity|].
    injection Hcode as <-. rewrite Hl.
    vm_compute in Hsp. injection Hsp as <-. reflexivity.
Defined.

(** ** Registration with an unknown sponsor code *)

Lemma code_filter_false code u :
  code_filter code u = false <->
  ambassadorCode u <> Some code /\ clientCode u <> Some code.
Proof.
  unfold code_filter, path_is.
  destruct (ambassadorCode u) as [x|], (clientCode u) as [y|]; cbn;
    repeat match goal with
      | |- context [String.eqb ?s code] => destruct (String.eqb_spec s code)
      end; cbn; split; try discriminate; try congruence;
    try (intros [? ?]; congruence); try (split; congruence).
Qed.

Lemma findByCode_none code db :
  (forall u, In u db ->
     ambassadorCode u <> Some code /\ clientCode u <> Some code) ->
  findByCode code db = None.
Proof.
  intros H. apply findOne_none. intros u Hu. now apply code_filter_false, H.
Qed.

(** C5, as the code has it.  A registration whose sponsor code is a
    non-empty string that no stored user has as ambassador or client code
    leaves the collection as it was and answers 400; the checks of the
    required fields and of the email come first, and once the fields are
    present and the email is free the answer is "Invalid sponsor code".  An
    empty sponsor code is no sponsor code: the request is handled as the
    same request without one. *)
Theorem register_unknown_sponsor :
  (forall env body db code,
     req_sponsorCode body = Some code -> code <> EmptyString ->
     (forall u, In u db ->
        ambassadorCode u <> Some code /\ clientCode u <> Some code) ->
     (register env body db).2 = db /\
     (exists err msg, (register env body db).1 = Json 400 (Error err msg)) /\
     (forall e,
        Str.truthy (req_email body) && Str.truthy (req_password body)
        && Str.truthy (req_firstName body) && Str.truthy (req_lastName body)
        = true ->
        req_email body = Some e -> findByEmail env e db = None ->
        (register env body db).1 = invalidSponsor)) /\
  (forall env body db,
     req_sponsorCode body = Some EmptyString ->
     register env body db = register env (withSponsorCode None body) db).
Proof.
  split.
  { intros env body db code Hc Hne Hno. apply findByCode_none in Hno.
    assert (Hres : resolveSponsor (req_sponsorCode body) db = None).
    { unfold resolveSponsor. rewrite Hc. cbn.
      destruct (String.eqb_spec code EmptyString); [contradiction|].
      cbn. now rewrite Hno. }
    unfold register. rewrite Hres.
    destruct (Str.truthy (req_email body) && _ && _ && _) eqn:Ht; cbn [negb].
    - apply andb_true_iff in Ht as [Ht Hln].
      apply andb_true_iff in Ht as [Ht Hfn].
      apply andb_true_iff in Ht as [He Hp].
      apply truthy_some in He as (e & -> & _), Hp as (p & -> & _),
        Hfn as (fn & -> & _), Hln as (ln & -> & _).
      destruct (findByEmail env e db) eqn:He; cbn.
      + split_and!; [reflexivity | unfold userExists; eauto |].
        intros e' _ [= <-]. congruence.
      + split_and!; [reflexivity | unfold invalidSponsor; eauto | now intros].
    - split_and!; [reflexivity | unfold missingFields; eauto | now intros].
  }
  intros env body db Hc. unfold register, withSponsorCode.
  cbn [req_email req_password req_firstName req_lastName req_phone
         req_role req_sponsorCode].
  now rewrite Hc.
Qed.

(** C5, as stated, fails at the empty sponsor code, which no stored user
    has as a code: the handler skips the lookup and registers the user
    without sponsor. *)
Lemma register_empty_sponsor_code_registers :
  findByCode EmptyString Chain.db3 = None /\
  statusOf
    (register (Chain.env Chain.d)
       (Chain.body "d@example.com" "client" (Some EmptyString)) Chain.db3).1
  = Some 201 /\
  length
    (register (Chain.env Chain.d)
       (Chain.body "d@example.com" "client" (Some EmptyString)) Chain.db3).2
  = S (length Chain.db3).
Proof. vm_compute. split_and!; reflexivity. Qed.

Lemma register_unknown_sponsor_witness :
  (register (Chain.env Chain.d)
     (Chain.body "d@example.com" "client" (Some "AMB999999")) Chain.db3).2
  = Chain.db3 /\
  (register (Chain.env Chain.d)
     (Chain.body "d@example.com" "client" (Some "AMB999999")) Chain.db3).1
  = invalidSponsor.
Proof.
  destruct (proj1 register_unknown_sponsor (Chain.env Chain.d)
              (Chain.body "d@example.com" "client" (Some "AMB999999"))
              Chain.db3 "AMB999999") as (Hdb & _ & Hresp).
  - reflexivity.
  - discriminate.
  - intros u Hu. apply code_filter_false. revert u Hu.
    apply findOne_none. vm_compute. reflexivity.
  - split; [exact Hdb|].
    apply (Hresp "d@example.com"); vm_compute; reflexivity.
Defined.

(** ** Registration with an email already stored *)

Lemma normalised_map (lower : string -> string) l :
  Forall (fun e => lower e = e) l -> map lower l = l.
Proof. induction 1 as [|x l Hx _ IH]; cbn; congruence. Qed.

Lemma register_emails env body db :
  map email (register env body db).2 = map email db \/
  exists e, req_email body = Some e /\
    map email (register env body db).2
      = map email db ++ [toLowerCase env (trim env e)] /\
    ~ In (toLowerCase env (trim env e)) (map email db).
Proof.
  destruct (register env body db) as [r db'] eqn:H. cbn.
  apply register_inv in H as [[-> _] | H]; [now left|]. right.
  destruct H as (e & p & fn & ln & sponsor & ro & user & writes & He & _ & _ & _
                 & _ & _ & Hsave & -> & Hw).
  apply saveNew_saved in Hsave as (_ & Hdup & a & c & Huser).
  apply duplicateKey_false in Hdup as [_ Hnew].
  assert (Hmail : email user = toLowerCase env (trim env e))
    by (subst user; reflexivity).
  exists e. split; [exact He|]. rewrite <- Hmail. split; [|exact Hnew].
  rewrite applyWrites_column.
  - now rewrite map_app.
  - eapply Forall_impl; [exact Hw|]. intros w Hk u. apply Hk.
Qed.

(** C10.  When the email of the request, put in lower case by
    [toLowerCase], is the email of a stored user, the registration answers
    400 and the collection is as it was.  When [toLowerCase] is idempotent,
    registration keeps the stored emails in lower case and pairwise
    different up to case. *)
Theorem register_email_unique env body db :
  (forall e u, req_email body = Some e -> In u db ->
               email u = toLowerCase env e ->
     exists err msg, register env body db = (Json 400 (Error err msg), db)) /\
  ((forall s, toLowerCase env (toLowerCase env s) = toLowerCase env s) ->
   emailsNormalised env db -> emailsUnique env db ->
   emailsNormalised env (register env body db).2 /\
   emailsUnique env (register env body db).2).
Proof.
  split; [intros e u; apply register_existing|].
  unfold emailsNormalised, emailsUnique. intros Hidem Hn Hu.
  destruct (register_emails env body db) as [-> | (e & _ & -> & Hnew)];
    [now split|].
  assert (Hn' : Forall (fun e => toLowerCase env e = e)
                  (map email db ++ [toLowerCase env (trim env e)])).
  { apply Forall_app. split; [exact Hn|].
    apply Forall_cons_2; [apply Hidem | apply Forall_nil_2]. }
  split; [exact Hn'|].
  rewrite (normalised_map _ _ Hn'). rewrite (normalised_map _ _ Hn) in Hu.
  apply NoDup_app. split_and!; [exact Hu | | apply NoDup_singleton].
  intros x Hx Hx'. apply list_elem_of_singleton in Hx'. subst x.
  apply Hnew. now apply list_elem_of_In.
Qed.

Lemma register_email_unique_witness :
  (exists err msg,
     register (Chain.env 5%nat) (Chain.body "B@Example.com" "client" None)
       Chain.db4
     = (Json 400 (Error err msg), Chain.db4)) /\
  emailsNormalised (Chain.env Chain.d) Chain.db4 /\
  emailsUnique (Chain.env Chain.d) Chain.db4.
Proof.
  split.
  - apply (proj1 (register_email_unique (Chain.env 5%nat)
                    (Chain.body "B@Example.com" "client" None) Chain.db4)
             "B@Example.com" (Chain.userOf Chain.b Chain.db4)).
    + reflexivity.
    + vm_compute. right. left. reflexivity.
    + vm_compute. reflexivity.
  - apply (proj2 (register_email_unique (Chain.env Chain.d) Chain.bodyD
                    Chain.db3)).
    + intros s. apply lowerASCII_idem.
    + apply (bool_decide_unpack _). vm_compute. exact I.
    + apply (bool_decide_unpack _). vm_compute. exact I.
Defined.

(** ** Codes *)

Lemma findByCode_unused code db :
  findByCode code db = None <-> ~ In code (allCodes db).
Proof.
  unfold findByCode. rewrite findOne_none. unfold allCodes. split.
  - intros H Hin. apply in_concat in Hin as (l & Hl & Hc).
    apply in_map_iff in Hl as (u & <- & Hu).
    apply H, code_filter_false in Hu as [Ha Hb].
    unfold codesOf in Hc. apply in_app_or in Hc.
    destruct (ambassadorCode u), (clientCode u); cbn in Hc;
      intuition congruence.
  - intros H u Hu. apply code_filter_false.
    split; intros Hc; apply H, in_concat; exists (codesOf u);
      (split; [now apply in_map|]); unfold codesOf; rewrite Hc;
      apply in_or_app; cbn; auto.
Qed.

Lemma generateUniqueCode_from_unused fuel env k db prefix code k' :
  generateUniqueCode_from fuel env k db prefix = Some (code, k') ->
  findByCode code db = None.
Proof.
  revert k. induction fuel as [|fuel IH]; intros k; cbn; [discriminate|].
  destruct (findOne _ db) eqn:E.
  - apply IH.
  - now intros [= <- _].
Qed.

Lemma generateUniqueCode_from_returns fuel env k db prefix j :
  (j < fuel)%nat ->
  findByCode (candidate env (k + j) prefix) db = None ->
  exists code k', generateUniqueCode_from fuel env k db prefix = Some (code, k').
Proof.
  revert k j. induction fuel as [|fuel IH]; intros k j Hj Hfree; [lia|].
  cbn. destruct (findOne _ db) eqn:E; [|eauto].
  destruct j as [|j].
  - rewrite Nat.add_0_r in Hfree. unfold findByCode in Hfree. congruence.
  - apply (IH (S k) j); [lia|]. now rewrite Nat.add_succ_comm.
Qed.

Lemma assignCodes_codes env doc db doc' :
  assignCodes env doc db = Some doc' ->
  ambassadorCode doc = None -> clientCode doc = None ->
  codesOf doc' = [] \/
  exists code, codesOf doc' = [code] /\ findByCode code db = None.
Proof.
  unfold assignCodes, generateUniqueCode, codesOf. intros H Ha Hc.
  rewrite Ha in H. cbn [Str.truthy negb] in H. rewrite andb_true_r in H.
  destruct (bool_decide (role doc = ambassador)) eqn:Hamb.
  - apply bool_decide_eq_true in Hamb.
    destruct (generateUniqueCode_from _ env 0 db "AMB") as [[code k]|] eqn:E;
      [|discriminate].
    assert (Hrole : role (set_ambassadorCode (Some code) doc) = ambassador)
      by (destruct doc; exact Hamb).
    rewrite Hrole in H. cbn in H. injection H as <-. right. exists code.
    split; [|eapply generateUniqueCode_from_unused; exact E].
    destruct doc; cbn in *. now rewrite Hc.
  - rewrite Hc in H. cbn [Str.truthy negb] in H. rewrite andb_true_r in H.
    destruct (bool_decide (role doc = client)).
    + destruct (generateUniqueCode_from _ env 0 db "CLI") as [[code k]|] eqn:E;
        [|discriminate].
      injection H as <-. right. exists code.
      split; [|eapply generateUniqueCode_from_unused; exact E].
      destruct doc; cbn in *. now rewrite Ha.
    + injection H as <-. rewrite Ha, Hc. now left.
Qed.

Lemma register_codes env body db :
  allCodes (register env body db).2 = allCodes db \/
  exists code, allCodes (register env body db).2 = allCodes db ++ [code] /\
               ~ In code (allCodes db).
Proof.
  destruct (register env body db) as [r db'] eqn:H. cbn [snd].
  apply register_inv in H as [[-> _] | H]; [now left|].
  destruct H as (e & p & fn & ln & sponsor & ro & user & writes & _ & _ & _ & _
                 & _ & _ & Hsave & -> & Hw).
  assert (Hcol : allCodes (applyWrites writes (db ++ [user]))
                 = allCodes db ++ codesOf user).
  { unfold allCodes. rewrite applyWrites_column.
    - rewrite map_app, concat_app. cbn. now rewrite app_nil_r.
    - eapply Forall_impl; [exact Hw|]. intros w Hk u.
      destruct (Hk u) as (_ & _ & _ & _ & Ha & Hc).
      unfold codesOf. now rewrite Ha, Hc. }
  rewrite Hcol. unfold saveNew in Hsave.
  destruct (negb _); [discriminate|].
  destruct (assignCodes _ _ db) as [coded|] eqn:Hcodes; [|discriminate].
  destruct (insertOne coded db); [|discriminate]. injection Hsave as -> _.
  apply assignCodes_codes in Hcodes as [-> | (code & -> & Hfree)];
    try reflexivity.
  - left. apply app_nil_r.
  - right. exists code. split; [reflexivity|]. now apply findByCode_unused.
Qed.

(** C8.  A code returned by [generateUniqueCode] is neither the ambassador
    code nor the client code of any stored user; the function returns as
    soon as one of the draws it is followed for is free; and registration
    keeps the codes in use, of both kinds together, pairwise different. *)
Theorem generated_code_is_unused (env : Env) (k : nat) (db : Db)
    (prefix : string) :
  (forall code k',
     generateUniqueCode env k db prefix = Some (code, k') ->
     forall u, In u db ->
       ambassadorCode u <> Some code /\ clientCode u <> Some code) /\
  (forall j, (j < attempts env)%nat ->
     findByCode (candidate env (k + j) prefix) db = None ->
     exists code k', generateUniqueCode env k db prefix = Some (code, k')) /\
  (forall body, codesUnique db -> codesUnique (register env body db).2).
Proof.
  unfold generateUniqueCode. split_and!.
  - intros code k' H u Hu.
    apply generateUniqueCode_from_unused in H.
    apply code_filter_false. revert u Hu. now apply findOne_none.
  - intros j. apply generateUniqueCode_from_returns.
  - unfold codesUnique. intros body Hu.
    destruct (register_codes env body db) as [-> | (code & -> & Hnew)];
      [exact Hu|].
    apply NoDup_app. split_and!; [exact Hu | | apply NoDup_singleton].
    intros x Hx Hx'. apply list_elem_of_singleton in Hx'. subst x.
    apply Hnew. now apply list_elem_of_In.
Qed.

Lemma generated_code_is_unused_witness :
  generateUniqueCode (Chain.env Chain.d) 0 Chain.db3 "CLI"
  = Some ("CLI000488", 1%nat) /\
  Forall (fun u => ambassadorCode u <> Some "CLI000488"
                   /\ clientCode u <> Some "CLI000488") Chain.db3 /\
  codesUnique Chain.db4.
Proof.
  assert (Hgen : generateUniqueCode (Chain.env Chain.d) 0 Chain.db3 "CLI"
                 = Some ("CLI000488", 1%nat)) by (vm_compute; reflexivity).
  destruct (generated_code_is_unused (Chain.env Chain.d) 0 Chain.db3 "CLI")
    as (Hfresh & _ & Hkeep).
  split_and!.
  - exact Hgen.
  - apply Forall_forall. intros u Hu.
    exact (Hfresh "CLI000488" 1%nat Hgen u (proj1 (list_elem_of_In _ _) Hu)).
  - apply (Hkeep Chain.bodyD). unfold codesUnique.
    apply (bool_decide_unpack _). vm_compute. exact I.
Defined.

(** ** Profile updates *)

Lemma sameSensitive_refl u : sameSensitive u u.
Proof. unfold sameSensitive. tauto. Qed.

Lemma sameSensitive_trans u v w :
  sameSensitive u v -> sameSensitive v w -> sameSensitive u w.
Proof. unfold sameSensitive. intuition congruence. Qed.

Lemma setPath_frame env p v u u' :
  ~ In p sensitivePaths -> setPath env p v u = Some u' ->
  sameSensitive u u' /\ _id u' = _id u.
Proof.
  intros Hp H.
  destruct p; try (exfalso; apply Hp; cbn; tauto);
    destruct v; cbn in H; try discriminate;
    repeat match type of H with
      | context [if ?b then _ else _] =>
          destruct b; cbn in H; try discriminate
      | context [match ?o with Some _ => _ | None => _ end] =>
          destruct o; cbn in H; try discriminate
      | context [mbind _ ?o] => destruct o; cbn in H; try discriminate
      end;
    injection H as <-; destruct u; unfold sameSensitive; cbn; tauto.
Qed.

Lemma pathOf_key key p : pathOf key = Some p -> keyOf p = key.
Proof.
  unfold pathOf. intros H. apply find_some in H as [_ H].
  now apply String.eqb_eq.
Qed.

Lemma stripSensitive_lookup updateData key v :
  stripSensitive updateData !! key = Some v ->
  ~ In key (map keyOf sensitivePaths) /\ updateData !! key = Some v.
Proof.
  unfold stripSensitive. intros H.
  repeat (apply lookup_delete_Some in H as [? H]).
  split; [|exact H]. cbn. intuition congruence.
Qed.

(** A key that is neither an operator nor a dotted path. *)
Lemma assignKey_frame env library key v u u' :
  isOperator key = false -> isDotted key = false ->
  ~ In key (map keyOf sensitivePaths) ->
  assignKey env library (key, v) u = Some u' ->
  sameSensitive u u' /\ _id u' = _id u.
Proof.
  unfold assignKey. cbn [fst snd]. intros -> -> Hk H. cbn [orb] in H.
  destruct (pathOf key) as [p|] eqn:Hp.
  - apply setPath_frame in H; [exact H|].
    intros Hin. apply Hk. apply pathOf_key in Hp. subst key.
    now apply in_map.
  - injection H as <-. split; [apply sameSensitive_refl | reflexivity].
Qed.

Lemma applyEntry_plain env library key v u :
  isOperator key = false ->
  applyEntry env library (key, v) u = assignKey env library (key, v) u.
Proof.
  unfold applyEntry. cbn [fst snd]. intros Hop.
  destruct (String.eqb_spec key "$set") as [-> | _]; [discriminate|].
  reflexivity.
Qed.

(** X11.  For an update document of plain keys (no update operator, no
    dotted path) the eleven deletions of [PUT /profile/:userId] do what the
    comment in the handler says: whatever the body, the sensitive paths of
    the target stay as they were. *)
Lemma updateProfile_plain_keeps_sensitive env library reqUser userId
    (updateData : gmap string Value) db u :
  (forall key v, updateData !! key = Some v ->
                 isOperator key = false /\ isDotted key = false) ->
  findById userId db = Some u ->
  exists u',
    findById userId
      (updateProfile env library reqUser userId updateData db).2 = Some u'
    /\ sameSensitive u u'.
Proof.
  intros Hplain Hu. unfold updateProfile.
  destruct (negb _ && negb _); cbn [snd];
    [exists u; split; [exact Hu | apply sameSensitive_refl]|].
  unfold findByIdAndUpdate. rewrite Hu.
  destruct (applyUpdate _ _ _ u) as [u'|] eqn:Happ; cbn [snd];
    [|exists u; split; [exact Hu | apply sameSensitive_refl]].
  destruct (indexClash _ _); cbn [snd];
    [exists u; split; [exact Hu | apply sameSensitive_refl]|].
  assert (Hframe : sameSensitive u u' /\ _id u' = _id u).
  { unfold applyUpdate in Happ.
    assert (Hkeys : forall key v,
               In (key, v) (map_to_list (stripSensitive updateData)) ->
               ~ In key (map keyOf sensitivePaths)
               /\ isOperator key = false /\ isDotted key = false).
    { intros key v Hin. apply list_elem_of_In, elem_of_map_to_list in Hin.
      apply stripSensitive_lookup in Hin as [Hk Hl]. split; [exact Hk|].
      exact (Hplain key v Hl). }
    revert u' Happ Hkeys.
    induction (map_to_list (stripSensitive updateData)) as [|[key v] l IH];
      intros u' H Hkeys; cbn in H.
    - injection H as <-. split; [apply sameSensitive_refl | reflexivity].
    - destruct (foldr _ (Some u) l) as [u1|] eqn:E; [|discriminate].
      cbn in H. destruct (IH u1) as [Hs Hid]; [reflexivity| |].
      { intros k w Hin. apply (Hkeys k w). now right. }
      destruct (Hkeys key v) as (Hk & Hop & Hdot); [now left|].
      rewrite applyEntry_plain in H by exact Hop.
      apply assignKey_frame in H as [Hs' Hid']; try assumption.
      split; [eapply sameSensitive_trans; eauto | congruence]. }
  destruct Hframe as [Hs Hid].
  exists (set_updatedAt (now env) u'). split.
  - apply (findById_updateOne_same userId (fun _ => set_updatedAt (now env) u')
             db u Hu).
    apply findById_id in Hu. destruct u'; cbn in *. congruence.
  - eapply sameSensitive_trans; [exact Hs|].
    destruct u'; unfold sameSensitive; cbn; tauto.
Qed.

Lemma updateProfile_plain_keeps_sensitive_witness :
  exists u',
    findById Chain.b
      (updateProfile (Chain.env 9%nat) (fun _ _ u => Some u)
         (Chain.userOf Chain.b Chain.db4) Chain.b
         {[ "firstName" := VString "Bea" ]} Chain.db4).2 = Some u' /\
    sameSensitive (Chain.userOf Chain.b Chain.db4) u'.
Proof.
  apply (updateProfile_plain_keeps_sensitive (Chain.env 9%nat)
           (fun _ _ u => Some u) (Chain.userOf Chain.b Chain.db4) Chain.b
           {[ "firstName" := VString "Bea" ]} Chain.db4
           (Chain.userOf Chain.b Chain.db4)).
  - intros key v H. apply lookup_singleton_Some in H as [<- _].
    split; reflexivity.
  - vm_compute. reflexivity.
Defined.


(** ** The network view *)

Lemma buildNetworkTree_height fuel db id cur m tree :
  buildNetworkTree fuel db id cur (Some m) = Some tree ->
  (forestHeight tree <= Z.to_nat (m - cur))%nat.
Proof.
  revert id cur tree. induction fuel as [|fuel IH]; intros id cur tree; cbn;
    [discriminate|].
  destruct (m <=? cur) eqn:E.
  - intros [= <-]. cbn. lia.
  - apply Z.leb_gt in E. intros H. apply mapM_Some in H.
    unfold forestHeight.
    induction H as [|member node members nodes Hn _ IHn]; cbn; [lia|].
    destruct (buildNetworkTree fuel db (_id member) (cur + 1) (Some m))
      as [children|] eqn:Hc; [|discriminate].
    cbn in Hn. injection Hn as <-. apply IH in Hc.
    unfold forestHeight in Hc. cbn. 
    replace (m - (cur + 1)) with (m - cur - 1) in Hc by lia.
    assert (S (Z.to_nat (m - cur - 1)) = Z.to_nat (m - cur)) by lia.
    lia.
Qed.

Lemma buildNetworkTree_total fuel db id cur m :
  (Z.to_nat (m - cur) < fuel)%nat ->
  is_Some (buildNetworkTree fuel db id cur (Some m)).
Proof.
  revert id cur. induction fuel as [|fuel IH]; intros id cur Hf; [lia|].
  cbn. destruct (m <=? cur) eqn:E; [eauto|].
  apply Z.leb_gt in E. apply mapM_is_Some, Forall_forall. intros member _.
  destruct (IH (_id member) (cur + 1)) as [children Hc]; [lia|].
  unfold compose. rewrite Hc. cbn. eauto.
Qed.

Lemma mapM_pure {A B : Type} (g : A -> B) (l : list A) :
  mapM (fun x => Some (g x)) l = Some (map g l).
Proof.
  induction l as [|x l IH]; [reflexivity|].
  cbn. rewrite IH. reflexivity.
Qed.

(** More nested calls than needed change nothing. *)
Lemma buildNetworkTree_fuel (fuel fuel' : nat) (db : Db) (id : ObjectId)
    (cur : Z) (maxLevel : option Z) (tree : list NetworkNode) :
  (fuel <= fuel')%nat ->
  buildNetworkTree fuel db id cur maxLevel = Some tree ->
  buildNetworkTree fuel' db id cur maxLevel = Some tree.
Proof.
  revert fuel' id cur tree.
  induction fuel as [|fuel IH]; intros fuel' id cur tree Hle; cbn;
    [discriminate|].
  destruct fuel' as [|fuel']; [lia|]. cbn.
  destruct (reached cur maxLevel); [auto|].
  intros H. apply mapM_Some in H. apply mapM_Some.
  eapply Forall2_impl; [exact H|]. cbn. intros member node Hn.
  destruct (buildNetworkTree fuel db (_id member) (cur + 1) maxLevel)
    as [children|] eqn:Hc; [|discriminate].
  rewrite (IH fuel' _ _ children) by (lia || exact Hc). exact Hn.
Qed.

Lemma getNetwork_numeric (m : Z) (reqUser : User) (db : Db) :
  getNetwork (Some (Some m)) reqUser db
  = match buildNetworkTree (S (Z.to_nat m)) db (_id reqUser) 0 (Some m) with
    | Some networkTree =>
        (Json 200 (NetworkData (ambassadorView reqUser) networkTree), db)
    | None => (NoResponse, db)
    end.
Proof. reflexivity. Qed.

Lemma mapM_map {A B : Type} (f : A -> option B) (g : A -> B) (l : list A)
    (k : list B) :
  (forall x y, f x = Some y -> y = g x) ->
  mapM f l = Some k -> k = map g l.
Proof.
  intros Hfg H. apply mapM_Some in H.
  induction H as [|x y l k Hxy _ IH]; [reflexivity|].
  cbn. now rewrite (Hfg x y Hxy), IH.
Qed.

(** What [buildNetworkTree] returns at level [currentLevel] is the view
    with the remaining budget [maxLevel - currentLevel]. *)
Lemma buildNetworkTree_view (fuel : nat) (db : Db) (id : ObjectId)
    (currentLevel m : Z) (tree : list NetworkNode) :
  buildNetworkTree fuel db id currentLevel (Some m) = Some tree ->
  tree = networkView db (Z.to_nat (m - currentLevel)) id.
Proof.
  revert id currentLevel tree.
  induction fuel as [|fuel IH]; intros id cur tree; cbn; [discriminate|].
  destruct (m <=? cur) eqn:E.
  - apply Z.leb_le in E. intros [= <-].
    now replace (Z.to_nat (m - cur)) with 0%nat by lia.
  - apply Z.leb_gt in E.
    replace (Z.to_nat (m - cur)) with (S (Z.to_nat (m - (cur + 1)))) by lia.
    cbn [networkView]. unfold directChildren. apply mapM_map.
    intros member node Hn.
    destruct (buildNetworkTree fuel db (_id member) (cur + 1) (Some m))
      as [children|] eqn:Hc; [|discriminate].
    cbn in Hn. injection Hn as <-. now rewrite (IH _ _ _ Hc).
Qed.

Lemma networkView_height (db : Db) (budget : nat) (id : ObjectId) :
  (forestHeight (networkView db budget id) <= budget)%nat.
Proof.
  revert id. induction budget as [|budget IH]; intros id; [cbn; lia|].
  cbn [networkView]. unfold forestHeight in *.
  induction (sortBy newestFirst (directChildren id db)) as [|x l IHl];
    [cbn; lia|].
  cbn. specialize (IH (_id x)). lia.
Qed.

(** C3.  With a numeric [maxLevel] the handler always answers, and what it
    sends is the view with a budget of [maxLevel] levels: one level is used
    at each nesting, and a call at level [currentLevel] has
    [maxLevel - currentLevel] left, listing nothing when that is 0.  So the
    tree is at most [maxLevel] levels high; with [maxLevel = 1] it is the
    direct downline, newest first, each with an empty list of children;
    with [maxLevel <= 0] it is empty; and without the parameter [maxLevel]
    is 3.  On the chain A <- B <- C <- D, [maxLevel = 1] shows B alone with
    no children, [maxLevel = 2] shows B and C, and the default B, C and D. *)
Theorem network_depth_limit :
  (forall reqUser db m,
     getNetwork (Some (Some m)) reqUser db
     = (Json 200 (NetworkData (ambassadorView reqUser)
                    (networkView db (Z.to_nat m) (_id reqUser))), db)) /\
  (forall fuel db id currentLevel m tree,
     buildNetworkTree fuel db id currentLevel (Some m) = Some tree ->
     tree = networkView db (Z.to_nat (m - currentLevel)) id) /\
  (forall db budget id,
     (forestHeight (networkView db budget id) <= budget)%nat) /\
  (forall reqUser db,
     getNetwork (Some (Some 1)) reqUser db
     = (Json 200
          (NetworkData (ambassadorView reqUser)
             (map (fun member => networkNode member [])
                (sortBy newestFirst (directChildren (_id reqUser) db)))),
        db)) /\
  (forall reqUser db m, m <= 0 ->
     getNetwork (Some (Some m)) reqUser db
     = (Json 200 (NetworkData (ambassadorView reqUser) []), db)) /\
  (forall reqUser db,
     getNetwork None reqUser db = getNetwork (Some (Some 3)) reqUser db) /\
  (let A := Chain.userOf Chain.a Chain.db4 in
   let sent levels :=
     match (getNetwork levels A Chain.db4).1 with
     | Json 200 (NetworkData _ tree) =>
         Some (map nodeId tree,
               map (fun n => map nodeId (childrenOf n)) tree,
               forestHeight tree)
     | _ => None
     end in
   sent (Some (Some 1)) = Some ([Chain.b], [[]], 1%nat) /\
   sent (Some (Some 2)) = Some ([Chain.b], [[Chain.c]], 2%nat) /\
   sent None = Some ([Chain.b], [[Chain.c]], 3%nat)).
Proof.
  assert (Hview : forall reqUser db m,
             getNetwork (Some (Some m)) reqUser db
             = (Json 200 (NetworkData (ambassadorView reqUser)
                            (networkView db (Z.to_nat m) (_id reqUser))), db)).
  { intros reqUser db m. rewrite getNetwork_numeric.
    destruct (buildNetworkTree_total (S (Z.to_nat m)) db (_id reqUser) 0 m)
      as [tree Ht]; [lia|].
    rewrite Ht. apply buildNetworkTree_view in Ht.
    rewrite Z.sub_0_r in Ht. now subst tree. }
  split_and!.
  - exact Hview.
  - apply buildNetworkTree_view.
  - apply networkView_height.
  - intros reqUser db. rewrite Hview. reflexivity.
  - intros reqUser db m Hm. rewrite Hview.
    now replace (Z.to_nat m) with 0%nat by lia.
  - reflexivity.
  - vm_compute. split_and!; reflexivity.
Qed.

(** When [levels] does not parse ([NaN]) no level stops the descent: on the
    chain the whole subtree of A, three levels, is sent. *)
Example network_unbounded_on_NaN :
  (fun r => match r with
            | Json _ (NetworkData _ tree) => Some (forestHeight tree)
            | _ => None
            end)
    (getNetwork (Some None) (Chain.userOf Chain.a Chain.db4) Chain.db4).1
  = Some 3%nat.
Proof. vm_compute. reflexivity. Qed.

Lemma network_depth_limit_witness :
  (getNetwork (Some (Some (-2))) (Chain.userOf Chain.a Chain.db4) Chain.db4).1
  = Json 200 (NetworkData (ambassadorView (Chain.userOf Chain.a Chain.db4)) []).
Proof.
  rewrite (proj1 (proj2 (proj2 (proj2 (proj2 network_depth_limit))))
             (Chain.userOf Chain.a Chain.db4) Chain.db4 (-2));
    [reflexivity | lia].
Defined.

(** ** Flat statistics *)

Lemma sumOf_sumZ (f : User -> Z) (l : list User) :
  sumOf f l = sumZ (map f l).
Proof.
  unfold sumOf, sumZ.
  assert (H : forall a, fold_left (fun sum u => sum + f u) l a
                        = a + foldr Z.add 0 (map f l)).
  { induction l as [|x l IH]; intros a; cbn; [lia|]. rewrite IH. lia. }
  now rewrite H.
Qed.

Lemma groupAll_head (docs : list User) :
  default (0, 0, 0) (head (groupAll docs))
  = (sumZ (map totalEarnings docs), sumZ (map totalPurchases docs),
     Z.of_nat (length docs)).
Proof.
  destruct docs as [|x docs]; [reflexivity|].
  unfold groupAll. cbn [head default from_option id].
  now rewrite !sumOf_sumZ.
Qed.

(** C2, as the code has it.  The [$group] stage of [GET /earnings] sums the
    earnings and the purchases of the stored users whose [sponsorId] is the
    caller and counts them; the summary reports the earnings, the count and
    the purchases times the commission rate.  The dashboard does the same
    over the stored users listed in the caller's [downline].  Direct
    children only: on the chain A <- B <- C <- D with earnings 10 each,
    both report total earnings 10 and one member for A. *)
Theorem flat_aggregate_direct_children :
  (forall reqUser db,
     let kids := directChildren (_id reqUser) db in
     let rate := if Qeq_bool (commissionRate reqUser) 0 then 5 # 100
                 else commissionRate reqUser in
     groupAll kids
     = match kids with
       | [] => []
       | _ => [(sumZ (map totalEarnings kids), sumZ (map totalPurchases kids),
                Z.of_nat (length kids))]
       end /\
     es_totalEarnings (earningsSummary reqUser db)
     = sumZ (map totalEarnings kids) /\
     es_totalCommission (earningsSummary reqUser db)
     = (inject_Z (sumZ (map totalPurchases kids)) * rate)%Q /\
     es_memberCount (earningsSummary reqUser db)
     = Z.of_nat (length kids) /\
     es_commissionRate (earningsSummary reqUser db) = (rate * 100)%Q) /\
  (forall env reqUser db user,
     findById (_id reqUser) db = Some user ->
     exists stats recent monthly,
       dashboard env reqUser db
       = (Json 200 (DashboardData (_id user) stats recent monthly), db) /\
       totalDownlineEarnings stats
       = sumZ (map totalEarnings (populate (downline user) db)) /\
       totalDownlinePurchases stats
       = sumZ (map totalPurchases (populate (downline user) db)) /\
       downlineCount stats
       = Z.of_nat (length (populate (downline user) db))) /\
  (map _id (directChildren Chain.a Chain.credited) = [Chain.b] /\
   es_totalEarnings
     (earningsSummary (Chain.userOf Chain.a Chain.credited) Chain.credited)
   = 10 /\
   es_memberCount
     (earningsSummary (Chain.userOf Chain.a Chain.credited) Chain.credited)
   = 1 /\
   exists recent monthly,
     (dashboard (Chain.env 9%nat) (Chain.userOf Chain.a Chain.credited)
        Chain.credited).1
     = Json 200 (DashboardData Chain.a
                   (mkDashboardStats 1 0 10 0 (5 # 100)) recent monthly)).
Proof.
  split_and!.
  - intros reqUser db kids rate. split.
    { unfold groupAll. destruct kids; [reflexivity|].
      now rewrite !sumOf_sumZ. }
    unfold earningsSummary. fold (directChildren (_id reqUser) db).
    fold kids. fold rate. cbn [es_totalEarnings es_totalCommission
                                 es_memberCount es_commissionRate].
    pose proof (groupAll_head kids) as H.
    destruct (head (groupAll kids)) as [[[e p] n]|]; cbn in H |- *.
    + injection H as -> -> ->. split_and!; reflexivity.
    + injection H as <- <- <-. split_and!; reflexivity.
  - intros env reqUser db user Hu. unfold dashboard. rewrite Hu.
    eexists _, _, _. split; [reflexivity|].
    cbn. rewrite !sumOf_sumZ. split_and!; reflexivity.
  - vm_compute. reflexivity.
  - vm_compute. reflexivity.
  - vm_compute. reflexivity.
  - eexists _, _. vm_compute. reflexivity.
Qed.

Lemma flat_aggregate_direct_children_witness :
  exists stats recent monthly,
    dashboard (Chain.env 9%nat) (Chain.userOf Chain.a Chain.credited)
      Chain.credited
    = (Json 200 (DashboardData Chain.a stats recent monthly), Chain.credited)
    /\ totalDownlineEarnings stats = 10.
Proof.
  destruct (proj1 (proj2 flat_aggregate_direct_children) (Chain.env 9%nat)
              (Chain.userOf Chain.a Chain.credited) Chain.credited
              (Chain.userOf Chain.a Chain.credited))
    as (stats & recent & monthly & Hd & He & _).
  - vm_compute. reflexivity.
  - exists stats, recent, monthly. split; [exact Hd|].
    rewrite He. vm_compute. reflexivity.
Defined.

(** C2, as stated, fails on the chain: the flat summary of A does not
    report the 30 and 3 of the whole subtree. *)
Lemma flat_aggregate_not_transitive :
  ~ (es_totalEarnings
       (earningsSummary (Chain.userOf Chain.a Chain.credited) Chain.credited)
     = 30 /\
     es_memberCount
       (earningsSummary (Chain.userOf Chain.a Chain.credited) Chain.credited)
     = 3).
Proof. vm_compute. intros [H _]. discriminate H. Qed.

(** ** Deleting a user *)

(** C4, as the code has it.  A user with a non-empty downline is not
    deleted: the answer is 400 and the collection is as it was.  A user
    with an empty downline is deleted: the answer is 200, one document
    less is stored, every other id reads as before, and (ids being unique)
    the deleted id reads nothing. *)
Theorem deleteUser_spec (userId : ObjectId) (db : Db) (user : User) :
  findById userId db = Some user ->
  (downline user <> [] -> deleteUser userId db = (hasDownline, db)) /\
  (downline user = [] ->
   exists db',
     deleteUser userId db = (userDeleted, db') /\
     length db = S (length db') /\
     (forall id, id <> userId -> findById id db' = findById id db) /\
     (NoDup (map _id db) -> findById userId db' = None)).
Proof.
  intros Hu. unfold deleteUser. rewrite Hu. split.
  - destruct (downline user); [congruence | reflexivity].
  - intros ->. cbn. exists (deleteOne userId db). split_and!.
    + reflexivity.
    + eapply length_deleteOne; exact Hu.
    + intros id Hne. now apply findById_deleteOne_other.
    + apply findById_deleteOne_same.
Qed.

Lemma deleteUser_spec_witness :
  deleteUser Chain.c Chain.db4 = (hasDownline, Chain.db4) /\
  (deleteUser Chain.d Chain.db4).1 = userDeleted /\
  findById Chain.d (deleteUser Chain.d Chain.db4).2 = None.
Proof.
  assert (Hc : findById Chain.c Chain.db4
               = Some (Chain.userOf Chain.c Chain.db4))
    by (vm_compute; reflexivity).
  assert (Hd : findById Chain.d Chain.db4
               = Some (Chain.userOf Chain.d Chain.db4))
    by (vm_compute; reflexivity).
  split.
  - apply (proj1 (deleteUser_spec Chain.c Chain.db4 _ Hc)).
    vm_compute. discriminate.
  - destruct (proj2 (deleteUser_spec Chain.d Chain.db4 _ Hd))
      as (db' & Hdel & _ & _ & Hgone); [vm_compute; reflexivity|].
    rewrite Hdel. split; [reflexivity|]. apply Hgone.
    apply (bool_decide_unpack _). vm_compute. exact I.
Defined.

(** C4, as stated, fails on the chain: after the leaf D is deleted, D's id
    is still in the downline of its sponsor C. *)
Lemma delete_leaves_sponsor_downline :
  (deleteUser Chain.d Chain.db4).1 = userDeleted /\
  findById Chain.d (deleteUser Chain.d Chain.db4).2 = None /\
  ~ (forall sponsor,
       findById Chain.c (deleteUser Chain.d Chain.db4).2 = Some sponsor ->
       ~ In Chain.d (downline sponsor)).
Proof.
  split_and!; [vm_compute; reflexivity | vm_compute; reflexivity |].
  intros H.
  apply (H (Chain.userOf Chain.c (deleteUser Chain.d Chain.db4).2)).
  - vm_compute. reflexivity.
  - vm_compute. left. reflexivity.
Qed.

(** ** Repeated reads *)

(** C7, as the code has it.  None of the three read routes writes.  The
    network view is the same at a second call.  The summary and the
    per-level groups of [GET /earnings], and the statistics and recent
    downline of the dashboard, are the same at a second call whatever
    [Math.random] returns; their [monthlyEarnings] name the same months. *)
Theorem reads_repeatable :
  (forall levels reqUser db,
     getNetwork levels reqUser (getNetwork levels reqUser db).2
     = getNetwork levels reqUser db) /\
  (forall env1 env2 reqUser db,
     (getEarnings env1 reqUser db).2 = db /\
     exists summary byLevel monthly1 monthly2,
       (getEarnings env1 reqUser db).1
       = Json 200 (EarningsData summary byLevel monthly1) /\
       (getEarnings env2 reqUser (getEarnings env1 reqUser db).2).1
       = Json 200 (EarningsData summary byLevel monthly2) /\
       map month monthly1 = map month monthly2) /\
  (forall env1 env2 reqUser db,
     (dashboard env1 reqUser db).2 = db /\
     ((dashboard env1 reqUser db).1 = dashboardFailed /\
      (dashboard env2 reqUser db).1 = dashboardFailed \/
      exists id stats recent monthly1 monthly2,
        (dashboard env1 reqUser db).1
        = Json 200 (DashboardData id stats recent monthly1) /\
        (dashboard env2 reqUser (dashboard env1 reqUser db).2).1
        = Json 200 (DashboardData id stats recent monthly2) /\
        (fmap (map fst) monthly1 = fmap (map fst) monthly2))).
Proof.
  split_and!.
  - intros levels reqUser db.
    assert (H : (getNetwork levels reqUser db).2 = db)
      by (unfold getNetwork; now destruct (buildNetworkTree _ _ _ _ _)).
    now rewrite H.
  - intros env1 env2 reqUser db. split; [reflexivity|].
    eexists _, _, _, _. split_and!; reflexivity.
  - intros env1 env2 reqUser db.
    assert (H : (dashboard env1 reqUser db).2 = db)
      by (unfold dashboard; now destruct (findById _ db)).
    split; [exact H|]. rewrite H. unfold dashboard.
    destruct (findById (_id reqUser) db) as [user|]; [right | now left].
    eexists _, _, _, _, _. split_and!; try reflexivity.
    cbn [snd fst]. now destruct (bool_decide (role user = ambassador)).
Qed.

(** C7, as stated, fails: two calls of [GET /earnings] on the same
    collection differ when [Math.random] returns different values. *)
Lemma earnings_not_repeatable :
  (getEarnings (Chain.env 1%nat) (Chain.userOf Chain.a Chain.credited)
     Chain.credited).1
  <> (getEarnings (Chain.env 4000%nat) (Chain.userOf Chain.a Chain.credited)
        (getEarnings (Chain.env 1%nat) (Chain.userOf Chain.a Chain.credited)
           Chain.credited).2).1.
Proof.
  intros H.
  apply (f_equal (fun r => match r with
                           | Json _ (EarningsData _ _ monthly) =>
                               map earnings monthly
                           | _ => []
                           end)) in H.
  vm_compute in H. discriminate H.
Qed.

(** ** Lookups and updates by id *)

Lemma findById_none_iff id db :
  findById id db = None <-> ~ In id (map _id db).
Proof.
  unfold findById. rewrite findOne_none. split.
  - intros H Hin. apply in_map_iff in Hin as (u & <- & Hu).
    apply H in Hu. now rewrite Nat.eqb_refl in Hu.
  - intros H u Hu. apply Nat.eqb_neq. intros <-. apply H. now apply in_map.
Qed.

Lemma findById_In id db u : findById id db = Some u -> In u db.
Proof. intros H. now apply findOne_some in H. Qed.

Lemma findById_unique db u :
  idsUnique db -> In u db -> findById (_id u) db = Some u.
Proof.
  unfold idsUnique, findById, findOne.
  induction db as [|x rest IH]; intros Hnd Hin; [contradiction|].
  cbn in Hnd. apply NoDup_cons in Hnd as [Hx Hrest]. cbn.
  destruct Hin as [-> | Hin]; [now rewrite Nat.eqb_refl|].
  destruct (Nat.eqb (_id x) (_id u)) eqn:E; [|now apply IH].
  exfalso. apply Nat.eqb_eq in E. apply Hx. rewrite E.
  apply list_elem_of_In. now apply in_map.
Qed.


Lemma findById_map (f : User -> User) id db :
  (forall u, _id (f u) = _id u) ->
  findById id (map f db) = f <$> findById id db.
Proof.
  intros Hf. unfold findById, findOne.
  induction db as [|x rest IH]; cbn; [reflexivity|].
  rewrite Hf. now destruct (Nat.eqb (_id x) id).
Qed.

Lemma updateOne_absent id g db :
  findById id db = None -> updateOne id g db = db.
Proof.
  unfold findById, findOne. induction db as [|x rest IH]; cbn; [reflexivity|].
  destruct (Nat.eqb (_id x) id); [discriminate|].
  intros H. now rewrite IH.
Qed.

Lemma updateOne_map id g db :
  idsUnique db ->
  updateOne id g db = map (fun u => if Nat.eqb (_id u) id then g u else u) db.
Proof.
  unfold idsUnique. induction db as [|x rest IH]; intros Hnd; [reflexivity|].
  cbn in Hnd. apply NoDup_cons in Hnd as [Hx Hrest]. cbn.
  destruct (Nat.eqb (_id x) id) eqn:E; [|now rewrite IH].
  f_equal. apply Nat.eqb_eq in E. subst id.
  rewrite <- (updateOne_absent (_id x) g rest) at 1.
  - now apply IH.
  - apply findById_none_iff. intros Hin. apply Hx. now apply list_elem_of_In.
Qed.

Lemma updateOne_app id g l1 l2 :
  updateOne id g (l1 ++ l2)
  = match findById id l1 with
    | Some _ => updateOne id g l1 ++ l2
    | None => l1 ++ updateOne id g l2
    end.
Proof.
  unfold findById, findOne. induction l1 as [|x l1 IH]; cbn; [reflexivity|].
  destruct (Nat.eqb (_id x) id); [reflexivity|].
  rewrite IH. now destruct (find _ l1).
Qed.

(** The ways [POST /register] ends. *)
Lemma register_cases env body db r db' :
  register env body db = (r, db') ->
  (db' = db /\ statusOf r <> Some 201 /\
   (r = NoResponse -> exists doc, saveNew env doc db = SaveHangs)) \/
  exists e p fn ln ro sponsor user,
    req_email body = Some e /\ req_password body = Some p /\
    req_firstName body = Some fn /\ req_lastName body = Some ln /\
    findByEmail env e db = None /\
    resolveSponsor (req_sponsorCode body) db = Some sponsor /\
    saveNew env (newUser env e p fn ln (req_phone body) ro sponsor) db
      = Saved user (db ++ [user]) /\
    match sponsor with
    | None =>
        statusOf r = Some 201 /\
        db' = saveChange env (_id user) (set_lastLogin (Some (now env)))
                (db ++ [user])
    | Some sp =>
        let sp' := set_downline (downline sp ++ [_id user]) sp in
        let db2 := saveChange env (_id sp') (set_downline (downline sp'))
                     (db ++ [user]) in
        match buildUpline (S (length db2)) db2 sp' [] with
        | Some up =>
            statusOf r = Some 201 /\
            db' = saveChange env (_id user) (set_lastLogin (Some (now env)))
                    (saveChange env (_id user) (set_upline up) db2)
        | None => r = NoResponse /\ db' = db2
        end
    end.
Proof.
  unfold register. intros H.
  assert (Hleft : forall s b, r = Json s b -> s <> 201 -> db' = db ->
            db' = db /\ statusOf r <> Some 201 /\
            (r = NoResponse -> exists doc, saveNew env doc db = SaveHangs)).
  { intros s b -> Hs ->. split_and!; [reflexivity | cbn; congruence | discriminate]. }
  destruct (negb _);
    [left; injection H as <- <-; now apply (Hleft 400 (Error "Missing required fields" "Campi obbligatori mancanti"))|].
  destruct (req_email body) as [e|];
    [|left; injection H as <- <-; now eapply Hleft].
  destruct (req_password body) as [p|];
    [|left; injection H as <- <-; now eapply Hleft].
  destruct (req_firstName body) as [fn|];
    [|left; injection H as <- <-; now eapply Hleft].
  destruct (req_lastName body) as [ln|];
    [|left; injection H as <- <-; now eapply Hleft].
  destruct (findByEmail env e db) eqn:Hemail;
    [left; injection H as <- <-; now eapply Hleft|].
  destruct (resolveSponsor _ db) as [sponsor|] eqn:Hsp;
    [|left; injection H as <- <-; now eapply Hleft].
  destruct (parseRole _) as [ro|];
    [|left; injection H as <- <-; now eapply Hleft].
  destruct (saveNew _ _ db) as [user db1| |] eqn:Hsave.
  - right. destruct (saveNew_saved _ _ _ _ _ Hsave) as (-> & _ & _).
    exists e, p, fn, ln, ro, sponsor, user.
    split_and!; try reflexivity; try assumption.
    unfold registerFinish in H. destruct sponsor as [sp|].
    + cbv zeta. destruct (buildUpline _ _ _ _) as [up|] eqn:Hup.
      * injection H as <- <-. split; [reflexivity|]. now destruct user.
      * injection H as <- <-. split; reflexivity.
    + injection H as <- <-. split; reflexivity.
  - left; injection H as <- <-; now eapply Hleft.
  - left. injection H as <- <-.
    split_and!; [reflexivity | discriminate | eauto].
Qed.

Lemma resolveSponsor_stored sc db sp :
  resolveSponsor sc db = Some (Some sp) -> In sp db.
Proof.
  intros H. apply resolveSponsor_truthy in H.
  destruct (Str.truthy sc); [|discriminate].
  destruct H as (code & s & _ & [= <-] & Hf).
  now apply findOne_some in Hf.
Qed.

(** ** The chain is a well-formed tree *)

Ltac evaluated db :=
  let v := eval vm_compute in db in
  replace db with v by (vm_compute; reflexivity).

Ltac each_user H :=
  cbn [In] in H; repeat destruct H as [<- | H]; try contradiction.

Lemma chain_treeOk (db : Db) :
  db = Chain.db3 \/ db = Chain.db4 \/ db = Chain.credited -> treeOk db.
Proof.
  intros [-> | [-> | ->]].
  all: match goal with |- treeOk ?d => evaluated d end.
  all: unfold treeOk, idsUnique, sponsorsStored, downlineInverse, levelsFollow,
         uplinesFollow; split_and!.
  all: try (apply (bool_decide_unpack _); vm_compute; exact I).
  all: try (intros u sid Hu Hs; each_user Hu; cbn in Hs; try discriminate;
            injection Hs as <-; vm_compute; eauto).
  all: intros u Hu; each_user Hu; vm_compute; reflexivity.
Qed.

(** ** Registration on a well-formed tree *)

(** The document [saveNew] stores for a new user. *)
Lemma saved_fields env e p fn ln ph ro sponsor db user db1 :
  saveNew env (newUser env e p fn ln ph ro sponsor) db = Saved user db1 ->
  findById (newObjectId env) db = None /\
  _id user = newObjectId env /\
  email user = toLowerCase env (trim env e) /\
  status user = pending /\
  sponsorId user = _id <$> sponsor /\
  downline user = [] /\ upline user = [] /\
  level user = match sponsor with Some s => level s + 1 | None => 0 end.
Proof.
  intros Hsave.
  apply saveNew_saved in Hsave as (_ & Hdup & a & c & Huser).
  apply duplicateKey_false in Hdup as [Hfresh _].
  assert (Hid : _id user = newObjectId env) by (subst user; reflexivity).
  rewrite Hid in Hfresh.
  split_and!; try assumption; subst user; reflexivity.
Qed.

Lemma linked_fields env sponsor u :
  _id (linked env sponsor u) = _id u /\
  sponsorId (linked env sponsor u) = sponsorId u /\
  level (linked env sponsor u) = level u /\
  upline (linked env sponsor u) = upline u /\
  email (linked env sponsor u) = email u /\
  status (linked env sponsor u) = status u.
Proof.
  unfold linked. destruct sponsor as [sp|]; [|tauto].
  destruct (Nat.eqb _ _); [|tauto]. now destruct u.
Qed.

Lemma linked_id env sponsor u : _id (linked env sponsor u) = _id u.
Proof. apply linked_fields. Qed.


(** The sponsor's save, on a collection with unique ids. *)
Lemma link_sponsor env db sp user :
  idsUnique db -> In sp db -> _id user = newObjectId env ->
  saveChange env (_id (set_downline (downline sp ++ [_id user]) sp))
    (set_downline (downline (set_downline (downline sp ++ [_id user]) sp)))
    (db ++ [user])
  = map (linked env (Some sp)) db ++ [user].
Proof.
  intros Hids Hin Hid. unfold saveChange.
  replace (_id (set_downline (downline sp ++ [_id user]) sp))
    with (_id sp) by now destruct sp.
  replace (downline (set_downline (downline sp ++ [_id user]) sp))
    with (downline sp ++ [_id user]) by now destruct sp.
  rewrite updateOne_app, (findById_unique db sp Hids Hin). f_equal.
  rewrite updateOne_map by exact Hids.
  apply map_ext. intros u. unfold linked. now rewrite Hid.
Qed.

(** A save of the new user, stored last under a fresh id. *)
Lemma save_new_user env (f : User -> User) l user :
  findById (_id user) l = None ->
  saveChange env (_id user) f (l ++ [user])
  = l ++ [set_updatedAt (now env) (f user)].
Proof.
  intros Hfresh. unfold saveChange.
  rewrite updateOne_app, Hfresh. cbn [updateOne].
  now rewrite Nat.eqb_refl.
Qed.

Lemma linked_fresh env sponsor db id :
  findById id db = None -> findById id (map (linked env sponsor) db) = None.
Proof.
  intros H. rewrite findById_map by apply linked_id. now rewrite H.
Qed.



(** *** The collection after the sponsor is linked and a user [n] with the
    fresh id is stored *)

Section Linked.

Variables (env : Env) (sponsor : option User) (db : Db) (n : User).
Hypothesis Hids : idsUnique db.
Hypothesis Hfresh : findById (newObjectId env) db = None.
Hypothesis Hn : _id n = newObjectId env.
Hypothesis Hnsp : sponsorId n = _id <$> sponsor.
Hypothesis Hsp : forall sp, sponsor = Some sp -> In sp db.






Hypothesis Hst : sponsorsStored db.










End Linked.

(** The collection a registration leaves, when ids are unique: the stored
    users with the sponsor linked, then the new user.  [user0] is the new
    user as first saved, which the upline walk runs next to. *)
Lemma register_shape env body db r db' :
  idsUnique db -> register env body db = (r, db') ->
  (db' = db /\ statusOf r <> Some 201 /\
   (r = NoResponse -> exists doc, saveNew env doc db = SaveHangs)) \/
  exists e sponsor n user0,
    req_email body = Some e /\ findByEmail env e db = None /\
    resolveSponsor (req_sponsorCode body) db = Some sponsor /\
    (forall sp, sponsor = Some sp -> In sp db) /\
    findById (newObjectId env) db = None /\
    db' = map (linked env sponsor) db ++ [n] /\
    _id n = newObjectId env /\
    email n = toLowerCase env (trim env e) /\ status n = pending /\
    sponsorId n = _id <$> sponsor /\ downline n = [] /\
    level n = match sponsor with Some s => level s + 1 | None => 0 end /\
    _id user0 = newObjectId env /\ sponsorId user0 = _id <$> sponsor /\
    match sponsor with
    | None => statusOf r = Some 201 /\ upline n = []
    | Some sp =>
        match buildUpline (S (length (map (linked env sponsor) db ++ [user0])))
                (map (linked env sponsor) db ++ [user0])
                (set_downline (downline sp ++ [newObjectId env]) sp) [] with
        | Some up => statusOf r = Some 201 /\ upline n = up
        | None => r = NoResponse /\ n = user0
        end
    end.
Proof.
  intros Hids H. apply register_cases in H as [H | H]; [now left|]. right.
  destruct H as (e & p & fn & ln & ro & sponsor & user & He & _ & _ & _ & Hmail
                 & Hsp & Hsave & Hdb).
  apply saved_fields in Hsave
    as (Hfresh & Hid & Hem & Hstat & Hsid & Hdl & Hup0 & Hlv).
  destruct sponsor as [sp|].
  - pose proof (resolveSponsor_stored _ _ _ Hsp) as Hin.
    cbv zeta in Hdb. rewrite (link_sponsor env db sp user Hids Hin Hid) in Hdb.
    replace (set_downline (downline sp ++ [_id user]) sp)
      with (set_downline (downline sp ++ [newObjectId env]) sp) in Hdb
      by now rewrite Hid.
    assert (Hfresh' : findById (_id user) (map (linked env (Some sp)) db) = None)
      by (rewrite Hid; now apply linked_fresh).
    destruct (buildUpline _ _ _ _) as [up|] eqn:Hup.
    + destruct Hdb as [Hr ->].
      rewrite (save_new_user env _ _ user Hfresh').
      replace (_id user)
        with (_id (set_updatedAt (now env) (set_upline up user)))
        by now destruct user.
      rewrite save_new_user
        by (replace (_id (set_updatedAt (now env) (set_upline up user)))
              with (_id user) by (now destruct user); exact Hfresh').
      exists e, (Some sp),
        (set_updatedAt (now env)
           (set_lastLogin (Some (now env))
              (set_updatedAt (now env) (set_upline up user)))), user.
      split_and!; try reflexivity; try assumption;
        try (intros ? [= <-]; exact Hin);
        try (destruct user; cbn in *; congruence).
      rewrite Hup. split; [exact Hr|]. now destruct user.
    + destruct Hdb as [-> ->].
      exists e, (Some sp), user, user.
      split_and!; try reflexivity; try assumption;
        try (intros ? [= <-]; exact Hin).
      now rewrite Hup.
  - destruct Hdb as [Hr ->].
    assert (Hfresh' : findById (_id user) db = None) by now rewrite Hid.
    rewrite (save_new_user env _ _ user Hfresh').
    exists e, None,
      (set_updatedAt (now env) (set_lastLogin (Some (now env)) user)), user.
    split_and!; try assumption; try discriminate;
      try (destruct user; cbn in *; congruence).
    cbn. now rewrite List.map_id.
Qed.






(** X3.  A registration that answers 201 on a collection with unique ids
    stores the new user last, under the fresh id, with the sponsor's id as
    [sponsorId], an empty [downline] and status [pending]; the sponsor's
    document gets the new id at the end of its [downline] and a new
    [updatedAt]; every other stored document is left as it was. *)
Theorem register_links_sponsor env body db r db' :
  idsUnique db -> register env body db = (r, db') -> statusOf r = Some 201 ->
  exists sponsor n,
    resolveSponsor (req_sponsorCode body) db = Some sponsor /\
    db' = map (linked env sponsor) db ++ [n] /\
    _id n = newObjectId env /\ sponsorId n = _id <$> sponsor /\
    downline n = [] /\ status n = pending.
Proof.
  intros Hids H Hr.
  apply register_shape in H as [(_ & Hne & _) | H]; [congruence | | exact Hids].
  destruct H as (e & sponsor & n & user0 & _ & _ & Hsp & _ & _ & -> & Hid
                 & _ & Hst & Hsid & Hdn & _).
  exists sponsor, n. split_and!; try assumption; reflexivity.
Qed.

Lemma register_links_sponsor_witness :
  exists sponsor n,
    resolveSponsor (req_sponsorCode Chain.bodyD) Chain.db3 = Some sponsor /\
    Chain.db4 = map (linked (Chain.env Chain.d) sponsor) Chain.db3 ++ [n] /\
    _id n = Chain.d /\ sponsorId n = (_id <$> sponsor) /\
    downline n = [] /\ status n = pending.
Proof.
  apply (register_links_sponsor (Chain.env Chain.d) Chain.bodyD Chain.db3
           (register (Chain.env Chain.d) Chain.bodyD Chain.db3).1 Chain.db4).
  - apply (chain_treeOk Chain.db3). now left.
  - unfold Chain.db4. apply surjective_pairing.
  - vm_compute. reflexivity.
Defined.

Lemma populate_children db ids kids :
  idsUnique db -> ids = map _id kids -> (forall k, In k kids -> In k db) ->
  populate ids db = kids.
Proof.
  intros Hids -> Hin. unfold populate.
  induction kids as [|k kids IH]; [reflexivity|].
  cbn. rewrite (findById_unique db k Hids) by (apply Hin; now left).
  cbn. f_equal. apply IH. intros k' Hk'. apply Hin. now right.
Qed.

(** X4.  When ids are unique and every [downline] lists the users
    sponsored, the populated downline of [GET /] is the set of users
    [GET /earnings] matches by [sponsorId]: the two routes report the same
    total earnings and the same member count, and the recent downline is
    the five newest direct recruits. *)
Theorem dashboard_agrees_with_earnings env reqUser db user :
  idsUnique db -> downlineInverse db ->
  findById (_id reqUser) db = Some user ->
  exists stats recent monthly,
    dashboard env reqUser db
    = (Json 200 (DashboardData (_id reqUser) stats recent monthly), db) /\
    totalDownlineEarnings stats = es_totalEarnings (earningsSummary reqUser db) /\
    downlineCount stats = es_memberCount (earningsSummary reqUser db) /\
    recent
    = map _id (take 5 (sortBy newestFirst (directChildren (_id reqUser) db))).
Proof.
  intros Hids Hinv Hu. unfold dashboard. rewrite Hu.
  pose proof (findById_id _ _ _ Hu) as Hid.
  assert (Hpop : populate (downline user) db = directChildren (_id reqUser) db).
  { apply populate_children; [exact Hids | |].
    - rewrite (Hinv user (findById_In _ _ _ Hu)). now rewrite Hid.
    - intros k Hk. now apply filter_In in Hk. }
  rewrite Hpop, Hid. eexists _, _, _. split; [reflexivity|].
  unfold earningsSummary, dashboardStats.
  cbn [totalDownlineEarnings downlineCount es_totalEarnings es_memberCount].
  fold (directChildren (_id reqUser) db).
  pose proof (groupAll_head (directChildren (_id reqUser) db)) as Hg.
  rewrite sumOf_sumZ.
  destruct (head (groupAll _)) as [[[x y] z]|]; cbn in Hg |- *;
    injection Hg as Hx Hy Hz; split_and!; congruence.
Qed.

Lemma dashboard_agrees_with_earnings_witness :
  exists stats recent monthly,
    dashboard (Chain.env 9%nat) (Chain.userOf Chain.a Chain.credited)
      Chain.credited
    = (Json 200 (DashboardData Chain.a stats recent monthly), Chain.credited) /\
    totalDownlineEarnings stats
    = es_totalEarnings
        (earningsSummary (Chain.userOf Chain.a Chain.credited) Chain.credited) /\
    downlineCount stats
    = es_memberCount
        (earningsSummary (Chain.userOf Chain.a Chain.credited) Chain.credited) /\
    recent
    = map _id (take 5 (sortBy newestFirst
                         (directChildren Chain.a Chain.credited))).
Proof.
  apply (dashboard_agrees_with_earnings (Chain.env 9%nat)
           (Chain.userOf Chain.a Chain.credited) Chain.credited
           (Chain.userOf Chain.a Chain.credited)).
  - apply (chain_treeOk Chain.credited). now right; right.
  - apply (chain_treeOk Chain.credited). now right; right.
  - vm_compute. reflexivity.
Defined.

(** ** Login *)

Lemma withoutStamps_touch env t u :
  withoutStamps (set_updatedAt (now env) (set_lastLogin t u)) = withoutStamps u.
Proof. now destruct u. Qed.

(** X5.  [POST /login] answers with a token only for a stored user found
    by the lower-cased email, whose digest [bcrypt.compare] accepts for the
    password sent and whose status is [active]; the token is signed over
    that user's id and the save stamps [lastLogin].  Every other answer
    leaves the collection as it was, and no login changes anything but
    [lastLogin] and [updatedAt]. *)
Theorem login_requires_active_match env bcryptCompare body db :
  (forall msg tok usr,
     (login env bcryptCompare body db).1 = LoginOk msg tok usr ->
     exists e p u,
       login_email body = Some e /\ login_password body = Some p /\
       findByEmail env e db = Some u /\
       bcryptCompare p (password u) = true /\ status u = active /\
       tk_userId tok = _id u /\
       (login env bcryptCompare body db).2
       = saveChange env (_id u) (set_lastLogin (Some (now env))) db) /\
  ((forall msg tok usr,
      (login env bcryptCompare body db).1 <> LoginOk msg tok usr) ->
   (login env bcryptCompare body db).2 = db) /\
  map withoutStamps (login env bcryptCompare body db).2
  = map withoutStamps db.
Proof.
  unfold login, comparePassword.
  destruct (negb (Str.truthy (login_email body)) || _);
    [split_and!; [discriminate | reflexivity | reflexivity]|].
  destruct (login_email body) as [e|];
    [|split_and!; [discriminate | reflexivity | reflexivity]].
  destruct (login_password body) as [p|];
    [|split_and!; [discriminate | reflexivity | reflexivity]].
  destruct (findByEmail env e db) as [u|] eqn:Hu;
    [|split_and!; [discriminate | reflexivity | reflexivity]].
  destruct (bcryptCompare p (password u)) eqn:Hp; cbn [negb];
    [|split_and!; [discriminate | reflexivity | reflexivity]].
  destruct (bool_decide (status u = active)) eqn:Hs; cbn [negb];
    [|split_and!; [discriminate | reflexivity | reflexivity]].
  apply bool_decide_eq_true in Hs. cbn [fst snd]. split_and!.
  - intros msg tok usr [= <- <- <-]. exists e, p, u.
    split_and!; reflexivity || assumption.
  - intros H. now destruct (H _ _ _ eq_refl).
  - unfold saveChange. apply map_updateOne. intros v.
    apply withoutStamps_touch.
Qed.

Lemma login_requires_active_match_witness :
  exists e p u,
    login_email Scenario.loginB = Some e /\
    login_password Scenario.loginB = Some p /\
    findByEmail (Chain.env 7%nat) e Scenario.activated = Some u /\
    Scenario.bcryptCompare p (password u) = true /\ status u = active /\
    Chain.b = _id u /\
    (login (Chain.env 7%nat) Scenario.bcryptCompare Scenario.loginB
       Scenario.activated).2
    = saveChange (Chain.env 7%nat) (_id u)
        (set_lastLogin (Some (now (Chain.env 7%nat)))) Scenario.activated.
Proof.
  eapply (proj1 (login_requires_active_match (Chain.env 7%nat)
                   Scenario.bcryptCompare Scenario.loginB Scenario.activated)
            _ (mkToken Chain.b "30d")).
  vm_compute. reflexivity.
Defined.

Lemma register_columns {A : Type} (g : User -> A) env body db r db' :
  (forall t u, g (set_updatedAt t u) = g u) ->
  (forall l u, g (set_downline l u) = g u) ->
  (forall l u, g (set_upline l u) = g u) ->
  (forall t u, g (set_lastLogin t u) = g u) ->
  register env body db = (r, db') ->
  (db' = db /\ statusOf r <> Some 201) \/
  exists e p fn ln ro sponsor user,
    req_email body = Some e /\ findByEmail env e db = None /\
    saveNew env (newUser env e p fn ln (req_phone body) ro sponsor) db
      = Saved user (db ++ [user]) /\
    map g db' = map g db ++ [g user].
Proof.
  intros Ht Hd Hu Hl H.
  apply register_cases in H as [(-> & Hne & _) | H]; [now left|]. right.
  destruct H as (e & p & fn & ln & ro & sponsor & user & He & _ & _ & _ & Hmail
                 & _ & Hsave & Hdb).
  exists e, p, fn, ln, ro, sponsor, user.
  split_and!; try assumption.
  assert (Hw : forall id (f : User -> User) l,
             (forall u, g (f u) = g u) ->
             map g (saveChange env id f l) = map g l).
  { intros id f l Hf. unfold saveChange. apply map_updateOne.
    intros u. now rewrite Ht. }
  destruct sponsor as [sp|].
  - cbv zeta in Hdb. destruct (buildUpline _ _ _ _) as [up|].
    + destruct Hdb as [_ ->]. rewrite !Hw by auto. now rewrite map_app.
    + destruct Hdb as [_ ->]. rewrite !Hw by auto. now rewrite map_app.
  - destruct Hdb as [_ ->]. rewrite !Hw by auto. now rewrite map_app.
Qed.

(** X6.  A user that has just registered cannot log in: new users are
    [pending], so a login with the registered email is refused (401, 403,
    or 400 without password) and leaves the collection as it was. *)
Theorem register_then_login_refused env env' bcryptCompare body db r db' e
    login_body :
  toLowerCase env' = toLowerCase env ->
  register env body db = (r, db') -> statusOf r = Some 201 ->
  req_email body = Some e -> login_email login_body = Some e ->
  login env' bcryptCompare login_body db' = (invalidCredentials, db') \/
  login env' bcryptCompare login_body db' = (accountNotActive, db') \/
  login env' bcryptCompare login_body db' = (credentialsRequired, db').
Proof.
  intros Hlow H Hr He Hle.
  apply (register_columns (fun u => (email u, status u))) in H
    as [[_ Hne] | H]; try (intros ? u; now destruct u); [congruence|].
  destruct H as (e' & p & fn & ln & ro & sponsor & user & He' & Hmail & Hsave
                 & Hcol).
  rewrite He in He'. injection He' as <-.
  apply saved_fields in Hsave as (_ & _ & Hem & Hstat & _).
  unfold login. rewrite Hle.
  destruct (negb (Str.truthy (Some e)) || _); [auto|].
  destruct (login_password login_body) as [pw|]; [|auto].
  destruct (findByEmail env' e db') as [u|] eqn:Hu; [|auto].
  destruct (negb (comparePassword bcryptCompare pw u)); [auto|].
  assert (Hpending : status u = pending).
  { apply findOne_some in Hu as [Hin Heq]. apply String.eqb_eq in Heq.
    rewrite Hlow in Heq.
    assert (Hg : In (email u, status u)
                   (map (fun u => (email u, status u)) db')) by
      (apply in_map_iff; eauto).
    rewrite Hcol in Hg. apply in_app_iff in Hg as [Hg | [Hg | []]].
    - exfalso. apply in_map_iff in Hg as (old & Hold & Hin').
      injection Hold as Hoe _.
      apply (proj1 (findOne_none _ _) Hmail) in Hin'. cbn in Hin'.
      rewrite Hoe, Heq, String.eqb_refl in Hin'. discriminate.
    - injection Hg as _ Hs. congruence. }
  rewrite Hpending. right. left. reflexivity.
Qed.

Lemma register_then_login_refused_witness :
  login (Chain.env 7%nat) Scenario.bcryptCompare Scenario.loginD Chain.db4
  = (accountNotActive, Chain.db4).
Proof.
  destruct (register_then_login_refused (Chain.env Chain.d) (Chain.env 7%nat)
              Scenario.bcryptCompare Chain.bodyD Chain.db3
              (register (Chain.env Chain.d) Chain.bodyD Chain.db3).1 Chain.db4
              "d@example.com" Scenario.loginD)
    as [H | [H | H]].
  - reflexivity.
  - unfold Chain.db4. apply surjective_pairing.
  - vm_compute. reflexivity.
  - reflexivity.
  - reflexivity.
  - exfalso. revert H. vm_compute. discriminate.
  - exact H.
  - exfalso. revert H. vm_compute. discriminate.
Defined.

(** ** Sorting *)

Lemma insertBy_In {A : Type} (before : A -> A -> bool) (x y : A) (l : list A) :
  In y (insertBy before x l) <-> y = x \/ In y l.
Proof.
  induction l as [|z l IH]; cbn; [intuition|].
  destruct (before x z); cbn; [intuition|]. rewrite IH. intuition.
Qed.

Lemma sortBy_In {A : Type} (before : A -> A -> bool) (y : A) (l : list A) :
  In y (sortBy before l) <-> In y l.
Proof.
  unfold sortBy. induction l as [|x l IH]; cbn; [tauto|].
  rewrite insertBy_In, IH. intuition.
Qed.

Lemma length_insertBy {A : Type} (before : A -> A -> bool) (x : A)
    (l : list A) :
  length (insertBy before x l) = S (length l).
Proof.
  induction l as [|z l IH]; cbn; [reflexivity|].
  destruct (before x z); cbn; [reflexivity | now rewrite IH].
Qed.

Lemma length_sortBy {A : Type} (before : A -> A -> bool) (l : list A) :
  length (sortBy before l) = length l.
Proof.
  unfold sortBy. induction l as [|x l IH]; cbn; [reflexivity|].
  now rewrite length_insertBy, IH.
Qed.

(** ** The dashboard *)

Lemma length_populate ids db : (length (populate ids db) <= length ids)%nat.
Proof.
  unfold populate. induction ids as [|id ids IH]; cbn; [lia|].
  destruct (findById id db); cbn; lia.
Qed.

Lemma populate_In ids db u :
  In u (populate ids db) -> In (_id u) ids /\ In u db.
Proof.
  unfold populate. induction ids as [|id ids IH]; cbn; [tauto|].
  destruct (findById id db) as [v|] eqn:Hv; cbn.
  - intros [<- | H].
    + split; [left; symmetry; now apply findById_id in Hv|].
      now apply findById_In in Hv.
    + destruct (IH H). tauto.
  - intros H. destruct (IH H). tauto.
Qed.

Lemma countOf_bounds (p : User -> bool) (l : list User) :
  0 <= countOf p l <= Z.of_nat (length l).
Proof.
  unfold countOf. split; [lia|]. apply inj_le.
  induction l as [|x l IH]; cbn; [lia|]. destruct (p x); cbn; lia.
Qed.

(** X7.  [GET /] for a stored user answers 200 with counts that fit
    together: the active downline is at most the downline count, which is
    at most the length of [downline] (ids without a document are dropped);
    at most five recent recruits are listed, each an id of [downline] with
    a stored document; and the monthly figures are there exactly for
    ambassadors. *)
Theorem dashboard_stats_bounds env reqUser db user :
  findById (_id reqUser) db = Some user ->
  exists stats recent monthly,
    dashboard env reqUser db
    = (Json 200 (DashboardData (_id user) stats recent monthly), db) /\
    0 <= activeDownline stats <= downlineCount stats /\
    downlineCount stats <= Z.of_nat (length (downline user)) /\
    (length recent <= 5)%nat /\
    (forall id, In id recent ->
       In id (downline user) /\ is_Some (findById id db)) /\
    (is_Some monthly <-> role user = ambassador).
Proof.
  intros Hu. unfold dashboard. rewrite Hu.
  eexists _, _, _. split; [reflexivity|].
  cbn [activeDownline downlineCount dashboardStats]. split_and!.
  - apply countOf_bounds.
  - apply countOf_bounds.
  - apply inj_le, length_populate.
  - rewrite length_map, length_take. lia.
  - intros id Hid. apply in_map_iff in Hid as (u & <- & Hin).
    apply list_elem_of_In, elem_of_take in Hin as (i & Hin & _).
    apply list_elem_of_lookup_2, list_elem_of_In, sortBy_In in Hin.
    apply populate_In in Hin as [Hd Hdb]. split; [exact Hd|].
    destruct (findById (_id u) db) as [v|] eqn:Hv; [eauto|].
    apply findById_none_iff in Hv. exfalso. apply Hv. now apply in_map.
  - destruct (bool_decide (role user = ambassador)) eqn:E.
    + apply bool_decide_eq_true in E. split; eauto.
    + apply bool_decide_eq_false in E. split; [intros [? [=]] | tauto].
Qed.

Lemma dashboard_stats_bounds_witness :
  exists stats recent monthly,
    dashboard (Chain.env 9%nat) (Chain.userOf Chain.a Chain.credited)
      Chain.credited
    = (Json 200 (DashboardData (_id (Chain.userOf Chain.a Chain.credited))
                   stats recent monthly), Chain.credited) /\
    0 <= activeDownline stats <= downlineCount stats /\
    downlineCount stats
    <= Z.of_nat (length (downline (Chain.userOf Chain.a Chain.credited))) /\
    (length recent <= 5)%nat /\
    (forall id, In id recent ->
       In id (downline (Chain.userOf Chain.a Chain.credited)) /\
       is_Some (findById id Chain.credited)) /\
    (is_Some monthly <-> role (Chain.userOf Chain.a Chain.credited) = ambassador).
Proof.
  apply (dashboard_stats_bounds (Chain.env 9%nat)
           (Chain.userOf Chain.a Chain.credited) Chain.credited
           (Chain.userOf Chain.a Chain.credited)).
  vm_compute. reflexivity.
Defined.

(** ** The shape of a generated code *)

Lemma length_append (s1 s2 : string) :
  String.length (s1 +:+ s2) = (String.length s1 + String.length s2)%nat.
Proof.
  induction s1 as [|c s1 IH]; [reflexivity|].
  change (S (String.length (s1 +:+ s2))
          = S (String.length s1 + String.length s2)).
  now rewrite IH.
Qed.

Lemma allDigits_append (s1 s2 : string) :
  allDigits (s1 +:+ s2) = allDigits s1 && allDigits s2.
Proof.
  induction s1 as [|c s1 IH]; [reflexivity|].
  change (isDigit c && allDigits (s1 +:+ s2)
          = isDigit c && allDigits s1 && allDigits s2).
  now rewrite IH, andb_assoc.
Qed.

Lemma length_replicate_char n c : String.length (Str.replicate_char n c) = n.
Proof. induction n as [|n IH]; cbn; [reflexivity | now rewrite IH]. Qed.

Lemma allDigits_replicate_zero n : allDigits (Str.replicate_char n "0") = true.
Proof. induction n as [|n IH]; cbn; [reflexivity | exact IH]. Qed.

Lemma isDigit_pretty_N_char (x : N) : isDigit (pretty_N_char x) = true.
Proof.
  unfold pretty_N_char.
  repeat match goal with
         | |- context [match ?y with _ => _ end] => destruct y
         end; reflexivity.
Qed.

Lemma pretty_N_go_digits (k : nat) (x : N) (s : string) :
  (x < 10 ^ N.of_nat k)%N ->
  (String.length (pretty_N_go x s) <= k + String.length s)%nat /\
  (String.length s <= String.length (pretty_N_go x s))%nat /\
  (allDigits s = true -> allDigits (pretty_N_go x s) = true).
Proof.
  revert x s. induction k as [|k IH]; intros x s Hx.
  - assert (x = 0%N) as -> by (cbn in Hx; lia).
    rewrite pretty_N_go_0. split_and!; [lia | lia | auto].
  - destruct (N.eq_dec x 0%N) as [-> | Hne].
    + rewrite pretty_N_go_0. split_and!; [lia | lia | auto].
    + rewrite pretty_N_go_step by lia.
      destruct (IH (x `div` 10)%N (String (pretty_N_char (x `mod` 10)) s))
        as (Hle & Hge & Hd).
      { apply N.Div0.div_lt_upper_bound.
        rewrite Nat2N.inj_succ, N.pow_succ_r' in Hx. exact Hx. }
      cbn [String.length] in Hle, Hge. split_and!; [lia | lia |].
      intros Hs. apply Hd. cbn [allDigits].
      now rewrite isDigit_pretty_N_char, Hs.
Qed.

Lemma floor_random_lt env k bound :
  (0 < bound)%N -> (floor_random env k bound < bound)%N.
Proof.
  intros Hb. unfold floor_random.
  apply N.Div0.div_lt_upper_bound.
  assert (random env k mod 2 ^ 53 < 2 ^ 53)%N by (apply N.mod_lt; lia).
  nia.
Qed.

Lemma candidate_format env k prefix :
  exists digits,
    candidate env k prefix = prefix +:+ digits /\
    String.length digits = 6%nat /\ allDigits digits = true.
Proof.
  unfold candidate. eexists. split; [reflexivity|].
  pose proof (floor_random_lt env k 1000000 eq_refl) as Hlt.
  set (x := floor_random env k 1000000) in *.
  assert (Hp : (1 <= String.length (pretty x) <= 6)%nat
               /\ allDigits (pretty x) = true).
  { unfold pretty, pretty_N. destruct (decide (x = 0%N)); [cbn; split; [lia|reflexivity]|].
    destruct (pretty_N_go_digits 6 x EmptyString Hlt) as (Hle & _ & Hd).
    cbn [String.length] in Hle. split; [|now apply Hd].
    split; [|lia].
    rewrite pretty_N_go_step by lia.
    destruct (pretty_N_go_digits 6 (x `div` 10)%N
                (String (pretty_N_char (x `mod` 10)) EmptyString))
      as (_ & Hge & _).
    { apply N.Div0.div_lt_upper_bound. lia. }
    cbn [String.length] in Hge. lia. }
  destruct Hp as [Hlen Hd]. unfold Str.padStart.
  rewrite length_append, length_replicate_char, allDigits_append,
    allDigits_replicate_zero, Hd.
  split; [lia | reflexivity].
Qed.

(** X8.  A code returned by [generateUniqueCode] is the prefix followed by
    exactly six decimal digits, and at least one and at most [attempts]
    draws were used for it. *)
Theorem generated_code_format env k db prefix code k' :
  generateUniqueCode env k db prefix = Some (code, k') ->
  exists digits,
    code = prefix +:+ digits /\
    String.length digits = 6%nat /\ allDigits digits = true /\
    (k < k' <= k + attempts env)%nat.
Proof.
  unfold generateUniqueCode.
  generalize (attempts env) as fuel. intros fuel. revert k.
  induction fuel as [|fuel IH]; intros k; cbn; [discriminate|].
  destruct (findOne _ db).
  - intros H. apply IH in H as (digits & ? & ? & ? & ?).
    exists digits. split_and!; try assumption; lia.
  - intros [= <- <-]. destruct (candidate_format env k prefix) as (digits & ? & ? & ?).
    exists digits. split_and!; try assumption; lia.
Qed.

Lemma generated_code_format_witness :
  exists digits,
    "CLI000488" = "CLI" +:+ digits /\
    String.length digits = 6%nat /\ allDigits digits = true /\
    (0 < 1 <= 0 + attempts (Chain.env Chain.d))%nat.
Proof.
  apply (generated_code_format (Chain.env Chain.d) 0 Chain.db3 "CLI"
           "CLI000488" 1%nat).
  vm_compute. reflexivity.
Defined.

(** ** Who is in an upline *)

Lemma upline_above db :
  treeOk db ->
  forall n u, length (upline u) = n -> In u db ->
  forall x, In x (upline u) ->
    exists v, findById x db = Some v /\ level v + 2 <= level u.
Proof.
  intros (Hids & Hst & _ & Hlv & Hup).
  induction n as [n IH] using lt_wf_ind. intros u Hn Hu x Hx.
  pose proof (Hup u Hu) as Hupu. pose proof (Hlv u Hu) as Hlvu.
  unfold sponsorOf in Hupu, Hlvu.
  destruct (sponsorId u) as [sid|] eqn:Hsid;
    [|rewrite Hupu in Hx; contradiction].
  destruct (Hst u sid Hu Hsid) as [s Hs]. rewrite Hs in Hupu, Hlvu.
  pose proof (findById_In _ _ _ Hs) as Hsin.
  pose proof (Hup s Hsin) as Hups. pose proof (Hlv s Hsin) as Hlvs.
  unfold sponsorOf in Hups, Hlvs.
  destruct (sponsorId s) as [g|] eqn:Hg.
  - destruct (Hst s g Hsin Hg) as [gr Hgr]. rewrite Hgr in Hups, Hlvs.
    rewrite Hupu in Hx. cbn in Hx. destruct Hx as [<- | Hx].
    + exists gr. split; [exact Hgr | lia].
    + destruct (IH (length (upline s))) with (u := s) (x := x)
        as (v & Hv & Hle); try assumption; try reflexivity.
      * rewrite <- Hn, Hupu. cbn. lia.
      * exists v. split; [exact Hv | lia].
  - rewrite Hupu, Hups in Hx. contradiction.
Qed.

(** ** The groups by level *)

Lemma addToLevel_ids u gs :
  map lg_id (addToLevel u gs)
  = if existsb (fun g => lg_id g =? level u) gs then map lg_id gs
    else map lg_id gs ++ [level u].
Proof.
  induction gs as [|g gs IH]; [reflexivity|].
  cbn. destruct (lg_id g =? level u); cbn; [reflexivity|].
  rewrite IH. now destruct (existsb _ gs).
Qed.

Lemma addToLevel_sums u gs :
  sumZ (map lg_count (addToLevel u gs)) = sumZ (map lg_count gs) + 1 /\
  sumZ (map lg_totalEarnings (addToLevel u gs))
  = sumZ (map lg_totalEarnings gs) + totalEarnings u /\
  sumZ (map lg_totalPurchases (addToLevel u gs))
  = sumZ (map lg_totalPurchases gs) + totalPurchases u.
Proof.
  unfold sumZ. induction gs as [|g gs IH]; cbn; [lia|].
  destruct (lg_id g =? level u); cbn; lia.
Qed.

Lemma groupByLevel_from docs gs :
  let out := fold_left (fun groups u => addToLevel u groups) docs gs in
  (NoDup (map lg_id gs) -> NoDup (map lg_id out)) /\
  (forall l, In l (map lg_id out) ->
     In l (map lg_id gs) \/ In l (map level docs)) /\
  sumZ (map lg_count out) = sumZ (map lg_count gs) + Z.of_nat (length docs) /\
  sumZ (map lg_totalEarnings out)
  = sumZ (map lg_totalEarnings gs) + sumZ (map totalEarnings docs) /\
  sumZ (map lg_totalPurchases out)
  = sumZ (map lg_totalPurchases gs) + sumZ (map totalPurchases docs).
Proof.
  revert gs. induction docs as [|u docs IH]; intros gs; cbn zeta.
  - cbn. split_and!; auto; unfold sumZ; cbn; lia.
  - cbn [fold_left]. destruct (IH (addToLevel u gs)) as (Hnd & Hin & Hc & He & Hp).
    destruct (addToLevel_sums u gs) as (Hc' & He' & Hp').
    pose proof (addToLevel_ids u gs) as Hids.
    split_and!.
    + intros H. apply Hnd. rewrite Hids.
      destruct (existsb _ gs) eqn:E; [exact H|].
      apply NoDup_app. split_and!; [exact H | | apply NoDup_singleton].
      intros x Hx Hx'. apply list_elem_of_singleton in Hx'. subst x.
      apply list_elem_of_In, in_map_iff in Hx as (g & Hg & Hgin).
      apply (existsb_false _ _ E) in Hgin. lia.
    + intros l Hl. apply Hin in Hl as [Hl | Hl]; [|right; now right].
      rewrite Hids in Hl. destruct (existsb _ gs); [now left|].
      apply in_app_iff in Hl as [Hl | [<- | []]]; [now left | right; now left].
    + rewrite Hc, Hc'. cbn [length]. lia.
    + rewrite He, He'. unfold sumZ. cbn. lia.
    + rewrite Hp, Hp'. unfold sumZ. cbn. lia.
Qed.

Section SortByKey.

Context {A : Type} (key : A -> Z).

Lemma insertBy_key_sum (f : A -> Z) x l :
  sumZ (map f (insertBy (fun a b => key a <=? key b) x l)) = f x + sumZ (map f l).
Proof.
  unfold sumZ. induction l as [|y l IH]; cbn; [lia|].
  destruct (key x <=? key y); cbn; lia.
Qed.

Lemma sortBy_key_sum (f : A -> Z) l :
  sumZ (map f (sortBy (fun a b => key a <=? key b) l)) = sumZ (map f l).
Proof.
  unfold sortBy. induction l as [|x l IH]; [reflexivity|].
  cbn [fold_right]. rewrite insertBy_key_sum, IH. reflexivity.
Qed.

Lemma insertBy_key_sorted x l :
  StronglySorted (fun a b => key a <= key b) l ->
  StronglySorted (fun a b => key a <= key b) (insertBy (fun a b => key a <=? key b) x l).
Proof.
  induction 1 as [|y l Hl IH Hy]; cbn; [repeat constructor|].
  destruct (key x <=? key y) eqn:E.
  - apply Z.leb_le in E. constructor; [now constructor|].
    constructor; [exact E|].
    eapply Forall_impl; [exact Hy|]. cbn. intros z Hz. lia.
  - apply Z.leb_gt in E. constructor; [exact IH|].
    apply Forall_forall. intros z Hz.
    apply list_elem_of_In, insertBy_In in Hz as [-> | Hz]; [lia|].
    apply (proj1 (Forall_forall _ _) Hy z). now apply list_elem_of_In.
Qed.

Lemma sortBy_key_sorted l :
  StronglySorted (fun a b => key a <= key b) (sortBy (fun a b => key a <=? key b) l).
Proof.
  unfold sortBy. induction l as [|x l IH]; cbn; [constructor|].
  now apply insertBy_key_sorted.
Qed.

Lemma insertBy_key_keys x l :
  map key (insertBy (fun a b => key a <=? key b) x l) ≡ₚ key x :: map key l.
Proof.
  induction l as [|y l IH]; cbn; [reflexivity|].
  destruct (key x <=? key y); cbn; [reflexivity|].
  rewrite IH. apply Permutation_swap.
Qed.

Lemma sortBy_key_keys l : map key (sortBy (fun a b => key a <=? key b) l) ≡ₚ map key l.
Proof.
  unfold sortBy. induction l as [|x l IH]; cbn; [reflexivity|].
  now rewrite insertBy_key_keys, IH.
Qed.

Lemma sorted_strict l :
  NoDup (map key l) ->
  StronglySorted (fun a b => key a <= key b) l ->
  StronglySorted (fun a b => key a < key b) l.
Proof.
  intros Hnd Hs. induction Hs as [|y l Hl IH Hy]; [constructor|].
  cbn in Hnd. apply NoDup_cons in Hnd as [Hy' Hnd].
  constructor; [now apply IH|].
  apply Forall_forall. intros z Hz.
  pose proof (proj1 (Forall_forall _ _) Hy z Hz) as Hle. cbv beta in Hle.
  assert (key y <> key z); [|lia].
  intros Heq. apply Hy'. rewrite Heq. now apply list_elem_of_fmap_2.
Qed.

End SortByKey.

Lemma earningsByLevel_levels id db g :
  In g (earningsByLevel id db) ->
  In (lg_id g) (map level (List.filter (hasInUpline id) db)).
Proof.
  unfold earningsByLevel, groupByLevel. intros Hg. apply sortBy_In in Hg.
  destruct (groupByLevel_from (List.filter (hasInUpline id) db) [])
    as (_ & Hin & _).
  destruct (Hin (lg_id g)) as [[] | H]; [now apply in_map | exact H].
Qed.

(** X9.  The per-level groups of [GET /earnings] come in strictly
    ascending order of level, every group is the level of a matched user,
    and the counts, earnings and purchases of the groups add up to those of
    the users that have the caller in their [upline]. *)
Theorem earnings_by_level_totals reqUser db :
  let matched := List.filter (hasInUpline (_id reqUser)) db in
  let byLevel := earningsByLevel (_id reqUser) db in
  StronglySorted (fun a b => lg_id a < lg_id b) byLevel /\
  (forall g, In g byLevel -> In (lg_id g) (map level matched)) /\
  sumZ (map lg_count byLevel) = Z.of_nat (length matched) /\
  sumZ (map lg_totalEarnings byLevel) = sumZ (map totalEarnings matched) /\
  sumZ (map lg_totalPurchases byLevel) = sumZ (map totalPurchases matched).
Proof.
  intros matched byLevel. unfold byLevel, earningsByLevel, groupByLevel.
  fold matched.
  destruct (groupByLevel_from matched []) as (Hnd & Hin & Hc & He & Hp).
  cbn zeta in *. split_and!.
  - apply sorted_strict; [|apply sortBy_key_sorted].
    rewrite sortBy_key_keys. apply Hnd. constructor.
  - intros g. apply earningsByLevel_levels.
  - rewrite sortBy_key_sum, Hc. reflexivity.
  - rewrite sortBy_key_sum, He. reflexivity.
  - rewrite sortBy_key_sum, Hp. reflexivity.
Qed.

Lemma earnings_by_level_totals_witness :
  In 2 (map level (List.filter (hasInUpline Chain.a) Chain.db4)).
Proof.
  apply (proj1 (proj2 (earnings_by_level_totals
                         (Chain.userOf Chain.a Chain.db4) Chain.db4))
           (mkLevelGroup 2 1 0 0)).
  vm_compute. left. reflexivity.
Defined.

(** X10.  On a well-formed tree the users [GET /earnings] groups by level
    are at least two levels below the caller, none of them sponsored by the
    caller: the walk of [POST /register] never puts the sponsor itself in an
    upline, so the groups start at the caller's level plus 2. *)
Theorem earnings_by_level_members reqUser db :
  treeOk db -> In reqUser db ->
  Forall (fun u => level reqUser + 2 <= level u /\
                   sponsoredBy (_id reqUser) u = false)
    (List.filter (hasInUpline (_id reqUser)) db) /\
  Forall (fun g => level reqUser + 2 <= lg_id g)
    (earningsByLevel (_id reqUser) db).
Proof.
  intros Hok Hreq.
  assert (Hm : forall u, In u (List.filter (hasInUpline (_id reqUser)) db) ->
                 level reqUser + 2 <= level u).
  { intros u Hu. apply filter_In in Hu as [Hu Hin].
    unfold hasInUpline in Hin. apply existsb_exists in Hin as (x & Hx & Heq).
    apply Nat.eqb_eq in Heq. subst x.
    destruct (upline_above db Hok _ u eq_refl Hu _ Hx) as (v & Hv & Hle).
    destruct Hok as (Hids & _).
    rewrite (findById_unique db reqUser Hids Hreq) in Hv.
    now injection Hv as <-. }
  split.
  - apply Forall_forall. intros u Hu. apply list_elem_of_In in Hu.
    split; [now apply Hm|].
    pose proof (Hm u Hu) as Hle. apply filter_In in Hu as [Hu _].
    unfold sponsoredBy. destruct (sponsorId u) as [sid|] eqn:Hsid; [|reflexivity].
    apply Nat.eqb_neq. intros ->.
    destruct Hok as (Hids & _ & _ & Hlv & _).
    pose proof (Hlv u Hu) as Hl. unfold sponsorOf in Hl.
    rewrite Hsid, (findById_unique db reqUser Hids Hreq) in Hl. lia.
  - apply Forall_forall. intros g Hg. apply list_elem_of_In in Hg.
    apply earningsByLevel_levels, in_map_iff in Hg as (u & <- & Hu).
    now apply Hm.
Qed.

Lemma earnings_by_level_members_witness :
  Forall (fun u => level (Chain.userOf Chain.a Chain.db4) + 2 <= level u /\
                   sponsoredBy Chain.a u = false)
    (List.filter (hasInUpline Chain.a) Chain.db4) /\
  Forall (fun g => level (Chain.userOf Chain.a Chain.db4) + 2 <= lg_id g)
    (earningsByLevel Chain.a Chain.db4).
Proof.
  apply (earnings_by_level_members (Chain.userOf Chain.a Chain.db4) Chain.db4).
  - apply chain_treeOk. right. now left.
  - vm_compute. left. reflexivity.
Defined.

(** ** Status updates *)

Lemma updateOne_const id (g : User -> User) db u :
  findById id db = Some u ->
  updateOne id (fun _ => g u) db = updateOne id g db.
Proof.
  unfold findById, findOne. induction db as [|x rest IH]; cbn; [discriminate|].
  destruct (Nat.eqb (_id x) id); [now intros [= ->]|].
  intros H. now rewrite IH.
Qed.

Lemma findById_split id db u :
  findById id db = Some u ->
  exists l1 l2, db = l1 ++ u :: l2 /\ deleteOne id db = l1 ++ l2.
Proof.
  unfold findById, findOne. induction db as [|x rest IH]; cbn; [discriminate|].
  destruct (Nat.eqb (_id x) id).
  - intros [= ->]. now exists [], rest.
  - intros H. destruct (IH H) as (l1 & l2 & -> & ->).
    now exists (x :: l1), l2.
Qed.

Lemma indexClash_false id db u u' :
  indexesHold db -> findById id db = Some u ->
  email u' = email u -> ambassadorCode u' = ambassadorCode u ->
  clientCode u' = clientCode u ->
  indexClash u' (deleteOne id db) = false.
Proof.
  intros (_ & Hmail & Hamb & Hcli) Hu He Ha Hc.
  destruct (findById_split _ _ _ Hu) as (l1 & l2 & -> & ->).
  unfold indexClash. rewrite He, Ha, Hc.
  apply not_true_is_false. intros H.
  apply existsb_exists in H as (o & Ho & H).
  assert (Ho' : o ∈ l1 ++ l2) by now apply list_elem_of_In.
  apply orb_prop in H as [H | H]; [apply orb_prop in H as [H | H]|].
  - apply String.eqb_eq in H.
    rewrite map_app in Hmail. cbn in Hmail.
    apply NoDup_app in Hmail as (_ & Hd & Hn).
    apply NoDup_cons in Hn as [Hn _].
    apply elem_of_app in Ho' as [Ho' | Ho'].
    + apply (Hd (email o)); [now apply list_elem_of_fmap_2|].
      rewrite H. left.
    + apply Hn. rewrite <- H. now apply list_elem_of_fmap_2.
  - unfold sparse_clash in H.
    destruct (ambassadorCode o) as [c|] eqn:Eo; [|discriminate].
    destruct (ambassadorCode u) as [c'|] eqn:Eu; [|discriminate].
    apply String.eqb_eq in H. subst c'.
    rewrite omap_app in Hamb. cbn in Hamb. rewrite Eu in Hamb. cbn in Hamb.
    apply NoDup_app in Hamb as (_ & Hd & Hn).
    apply NoDup_cons in Hn as [Hn _].
    apply elem_of_app in Ho' as [Ho' | Ho'].
    + apply (Hd c); [apply list_elem_of_omap; eauto | left].
    + apply Hn. apply list_elem_of_omap; eauto.
  - unfold sparse_clash in H.
    destruct (clientCode o) as [c|] eqn:Eo; [|discriminate].
    destruct (clientCode u) as [c'|] eqn:Eu; [|discriminate].
    apply String.eqb_eq in H. subst c'.
    rewrite omap_app in Hcli. cbn in Hcli. rewrite Eu in Hcli. cbn in Hcli.
    apply NoDup_app in Hcli as (_ & Hd & Hn).
    apply NoDup_cons in Hn as [Hn _].
    apply elem_of_app in Ho' as [Ho' | Ho'].
    + apply (Hd c); [apply list_elem_of_omap; eauto | left].
    + apply Hn. apply list_elem_of_omap; eauto.
Qed.

Lemma parseStatus_allowed s :
  existsb (String.eqb s) ["active"; "inactive"; "pending"]
  = bool_decide (is_Some (parseStatus s)).
Proof.
  unfold parseStatus. cbn [existsb].
  destruct (String.eqb s "active");
    [symmetry; apply bool_decide_eq_true_2; eauto|].
  destruct (String.eqb s "inactive");
    [symmetry; apply bool_decide_eq_true_2; eauto|].
  destruct (String.eqb s "pending");
    [symmetry; apply bool_decide_eq_true_2; eauto|].
  symmetry. apply bool_decide_eq_false_2. now intros [? [=]].
Qed.

Lemma applyUpdate_status env library s u :
  applyUpdate env library {[ "status" := VString s ]} u
  = (fun st => set_status st u) <$> parseStatus s.
Proof.
  unfold applyUpdate. rewrite map_to_list_singleton. cbn.
  now destruct (parseStatus s).
Qed.

Lemma withoutStatus_touch t st u :
  withoutStatus (set_updatedAt t (set_status st u)) = withoutStatus u.
Proof. now destruct u. Qed.

(** X12.  [PUT /:userId/status]: a status that is not one of the three
    strings is refused (400) and nothing is written; an unknown id gives
    404; whatever the request, no stored document changes in anything but
    [status] and [updatedAt]; and when the unique indexes hold, a valid
    status is stored on the target with a new [updatedAt], every other user
    reading as before. *)
Theorem updateStatus_spec env library userId status db :
  ((forall s, status = Some (VString s) -> parseStatus s = None) ->
   updateStatus env library userId status db = (invalidStatus, db)) /\
  map withoutStatus (updateStatus env library userId status db).2
  = map withoutStatus db /\
  (forall s st,
     status = Some (VString s) -> parseStatus s = Some st ->
     findById userId db = None ->
     updateStatus env library userId status db = (userNotFound, db)) /\
  (forall s st u,
     status = Some (VString s) -> parseStatus s = Some st ->
     findById userId db = Some u -> indexesHold db ->
     exists message message_it user,
       (updateStatus env library userId status db).1
       = Json 200 (ProfileUpdated message message_it user) /\
       findById userId (updateStatus env library userId status db).2
       = Some (set_updatedAt (now env) (set_status st u)) /\
       forall id', id' <> userId ->
         findById id' (updateStatus env library userId status db).2
         = findById id' db).
Proof.
  unfold updateStatus. split_and!.
  - intros Hno. destruct status as [[]|]; try reflexivity.
    rewrite parseStatus_allowed, (Hno _ eq_refl). reflexivity.
  - destruct status as [[]|]; try reflexivity.
    destruct (existsb _ _); [|reflexivity].
    unfold findByIdAndUpdate.
    destruct (findById userId db) as [u|] eqn:Hu; [|reflexivity].
    rewrite applyUpdate_status.
    destruct (parseStatus _) as [st|]; [|reflexivity]. cbn [fmap option_fmap option_map].
    destruct (indexClash _ _); [reflexivity|]. cbn [snd].
    rewrite (updateOne_const userId
               (fun u => set_updatedAt (now env) (set_status st u)) db u Hu).
    apply map_updateOne. intros v. apply withoutStatus_touch.
  - intros s st -> Hst Hu. rewrite parseStatus_allowed, Hst.
    rewrite bool_decide_eq_true_2 by eauto.
    unfold findByIdAndUpdate. now rewrite Hu.
  - intros s st u -> Hst Hu Hidx. rewrite parseStatus_allowed, Hst.
    rewrite bool_decide_eq_true_2 by eauto.
    unfold findByIdAndUpdate. rewrite Hu, applyUpdate_status, Hst.
    cbn [fmap option_fmap option_map].
    rewrite (indexClash_false userId db u) by
      (try assumption; now destruct u).
    cbn [fst snd]. eexists _, _, _. split; [reflexivity|]. split.
    + apply (findById_updateOne_same userId
               (fun _ => set_updatedAt (now env) (set_status st u)) db u Hu).
      apply findById_id in Hu. now destruct u.
    + intros id' Hne.
      rewrite (updateOne_const userId
                 (fun u => set_updatedAt (now env) (set_status st u)) db u Hu).
      rewrite findById_updateOne by (intros v; now destruct v).
      destruct (findById id' db) as [v|] eqn:Hv; [|reflexivity]. cbn.
      apply findById_id in Hv. subst id'.
      destruct (Nat.eqb (_id v) userId) eqn:E; [|reflexivity].
      apply Nat.eqb_eq in E. contradiction.
Qed.

Lemma chain_indexesHold (db : Db) :
  db = Chain.db4 \/ db = Scenario.activated -> indexesHold db.
Proof.
  intros [-> | ->]; unfold indexesHold, idsUnique; split_and!;
    apply (bool_decide_unpack _); vm_compute; exact I.
Qed.

Lemma updateStatus_spec_witness :
  exists message message_it user,
    (updateStatus (Chain.env 6%nat) (fun _ _ u => Some u) Chain.b
       (Some (VString "active")) Chain.db4).1
    = Json 200 (ProfileUpdated message message_it user) /\
    findById Chain.b Scenario.activated
    = Some (set_updatedAt (now (Chain.env 6%nat))
              (set_status active (Chain.userOf Chain.b Chain.db4))) /\
    forall id', id' <> Chain.b ->
      findById id' Scenario.activated = findById id' Chain.db4.
Proof.
  apply (proj2 (proj2 (proj2 (updateStatus_spec (Chain.env 6%nat)
                                (fun _ _ u => Some u) Chain.b
                                (Some (VString "active")) Chain.db4)))
           "active" active (Chain.userOf Chain.b Chain.db4)).
  - reflexivity.
  - reflexivity.
  - vm_compute. reflexivity.
  - apply chain_indexesHold. now left.
Defined.

(** ** Password changes *)

Lemma withoutPassword_touch t p u :
  withoutPassword (set_updatedAt t (set_password p u)) = withoutPassword u.
Proof. now destruct u. Qed.

Lemma savePassword_frame env user new db db' :
  savePassword env user new db = Some db' ->
  map withoutPassword db' = map withoutPassword db.
Proof.
  unfold savePassword, saveChange.
  destruct (String.eqb new (password user)); [now intros [= <-]|].
  destruct (6 <=? String.length new)%nat; [|discriminate].
  intros [= <-]. apply map_updateOne. intros v. apply withoutPassword_touch.
Qed.

(** X13.  [PUT /change-password/:userId] changes the password only of a
    stored user, for an admin or for the user itself with a current
    password that [bcrypt.compare] accepts; the stored password is then the
    digest of the new one, of six characters at least, unless the new value
    was the stored one and nothing was written.  Every other answer leaves
    the collection as it was, and no request changes anything but
    [password] and [updatedAt]. *)
Theorem changePassword_spec env bcryptCompare reqUser userId currentPassword
    newPassword db :
  (forall message message_it,
     (changePassword env bcryptCompare reqUser userId currentPassword
        newPassword db).1 = PasswordChanged message message_it ->
     exists user current new,
       findById userId db = Some user /\
       currentPassword = Some current /\ newPassword = Some new /\
       (role reqUser = admin \/
        _id reqUser = userId /\ bcryptCompare current (password user) = true) /\
       (new = password user /\
        (changePassword env bcryptCompare reqUser userId currentPassword
           newPassword db).2 = db
        \/
        (6 <= String.length new)%nat /\
        findById userId
          (changePassword env bcryptCompare reqUser userId currentPassword
             newPassword db).2
        = Some (set_updatedAt (now env)
                  (set_password (bcrypt env new) user)))) /\
  ((forall message message_it,
      (changePassword env bcryptCompare reqUser userId currentPassword
         newPassword db).1 <> PasswordChanged message message_it) ->
   (changePassword env bcryptCompare reqUser userId currentPassword
      newPassword db).2 = db) /\
  map withoutPassword
    (changePassword env bcryptCompare reqUser userId currentPassword
       newPassword db).2
  = map withoutPassword db.
Proof.
  unfold changePassword, comparePassword.
  destruct (negb (Nat.eqb (_id reqUser) userId) && _) eqn:Hacc;
    [split_and!; [discriminate | reflexivity | reflexivity]|].
  destruct (negb (Str.truthy currentPassword) || _);
    [split_and!; [discriminate | reflexivity | reflexivity]|].
  destruct currentPassword as [current|];
    [|split_and!; [discriminate | reflexivity | reflexivity]].
  destruct newPassword as [new|];
    [|split_and!; [discriminate | reflexivity | reflexivity]].
  destruct (findById userId db) as [user|] eqn:Hu;
    [|split_and!; [discriminate | reflexivity | reflexivity]].
  destruct (negb (bool_decide (role reqUser = admin)) && _) eqn:Hcmp;
    [split_and!; [discriminate | reflexivity | reflexivity]|].
  destruct (savePassword env user new db) as [db'|] eqn:Hsave;
    [|split_and!; [discriminate | reflexivity | reflexivity]].
  cbn [fst snd]. split_and!.
  - intros _ _ _. exists user, current, new.
    split_and!; try reflexivity.
    + destruct (bool_decide (role reqUser = admin)) eqn:Hadm.
      * left. now apply bool_decide_eq_true in Hadm.
      * right. cbn in Hacc, Hcmp. rewrite andb_true_r in Hacc.
        apply negb_false_iff in Hacc, Hcmp.
        now apply Nat.eqb_eq in Hacc.
    + unfold savePassword in Hsave.
      destruct (String.eqb_spec new (password user)) as [-> | _].
      * left. now injection Hsave as <-.
      * destruct (6 <=? String.length new)%nat eqn:Hlen; [|discriminate].
        right. injection Hsave as <-. split; [now apply Nat.leb_le|].
        unfold saveChange.
        rewrite (findById_id _ _ _ Hu).
        apply (findById_updateOne_same userId
                 (fun u => set_updatedAt (now env)
                             (set_password (bcrypt env new) u)) db user Hu).
        apply findById_id in Hu. now destruct user.
  - intros H. now destruct (H _ _ eq_refl).
  - now apply savePassword_frame in Hsave.
Qed.

Lemma changePassword_spec_witness :
  exists user current new,
    findById Chain.b Scenario.activated = Some user /\
    Some "secret1" = Some current /\ Some "secret2" = Some new /\
    (role (Chain.userOf Chain.b Scenario.activated) = admin \/
     _id (Chain.userOf Chain.b Scenario.activated) = Chain.b /\
     Scenario.bcryptCompare current (password user) = true) /\
    (new = password user /\
     (changePassword (Chain.env 8%nat) Scenario.bcryptCompare
        (Chain.userOf Chain.b Scenario.activated) Chain.b
        (Some "secret1") (Some "secret2") Scenario.activated).2
     = Scenario.activated
     \/
     (6 <= String.length new)%nat /\
     findById Chain.b
       (changePassword (Chain.env 8%nat) Scenario.bcryptCompare
          (Chain.userOf Chain.b Scenario.activated) Chain.b
          (Some "secret1") (Some "secret2") Scenario.activated).2
     = Some (set_updatedAt (now (Chain.env 8%nat))
               (set_password (bcrypt (Chain.env 8%nat) new) user))).
Proof.
  apply (proj1 (changePassword_spec (Chain.env 8%nat) Scenario.bcryptCompare
                  (Chain.userOf Chain.b Scenario.activated) Chain.b
                  (Some "secret1") (Some "secret2") Scenario.activated)
           "Password changed successfully" "Password cambiata con successo").
  vm_compute. reflexivity.
Defined.

Lemma findOne_map (p : User -> bool) (f : User -> User) (db : Db) :
  (forall u, p (f u) = p u) -> findOne p (map f db) = f <$> findOne p db.
Proof.
  intros Hf. unfold findOne. induction db as [|x rest IH]; [reflexivity|].
  cbn. rewrite Hf. now destruct (p x).
Qed.

(** X14.  After a password change that answered with success, an active
    user logs in with the new password, [bcrypt.compare] accepting the
    digests [bcrypt.hash] makes: the hook that hashes on save and
    [comparePassword] fit together. *)
Theorem changed_password_logs_in env env' bcryptCompare reqUser user
    currentPassword new e remember db :
  (forall p, bcryptCompare p (bcrypt env p) = true) ->
  toLowerCase env' = toLowerCase env ->
  idsUnique db ->
  findByEmail env e db = Some user -> status user = active ->
  e <> EmptyString -> new <> password user ->
  (changePassword env bcryptCompare reqUser (_id user) currentPassword
     (Some new) db).1 = passwordChanged ->
  exists message token logged,
    (login env' bcryptCompare (mkLoginBody (Some e) (Some new) remember)
       (changePassword env bcryptCompare reqUser (_id user) currentPassword
          (Some new) db).2).1
    = LoginOk message token logged /\
    tk_userId token = _id user.
Proof.
  intros Hbcrypt Hlow Hids Hfind Hact He Hnew Hchanged.
  assert (Hu : findById (_id user) db = Some user).
  { apply findOne_some in Hfind as [Hin _]. now apply findById_unique. }
  destruct (changePassword_spec env bcryptCompare reqUser (_id user)
              currentPassword (Some new) db) as (Hspec & _ & _).
  destruct (Hspec _ _ Hchanged)
    as (user' & current & new' & Hu' & _ & [= <-] & _ & Hcase).
  rewrite Hu in Hu'. injection Hu' as <-.
  destruct Hcase as [[Heq _] | [Hlen _]]; [contradiction|].
  revert Hchanged. unfold changePassword.
  destruct (negb (Nat.eqb (_id reqUser) (_id user)) && _); [discriminate|].
  destruct (negb (Str.truthy currentPassword) || _); [discriminate|].
  destruct currentPassword as [cur|]; [|discriminate].
  rewrite Hu.
  destruct (negb (bool_decide (role reqUser = admin)) && _); [discriminate|].
  unfold savePassword.
  destruct (String.eqb_spec new (password user)) as [Heq | _];
    [contradiction|].
  apply Nat.leb_le in Hlen. rewrite Hlen. intros _. cbn [snd].
  unfold saveChange. rewrite (updateOne_map _ _ _ Hids).
  unfold login. cbn [login_email login_password login_rememberMe].
  assert (Ht : Str.truthy (Some e) = true).
  { cbn. now destruct (String.eqb_spec e EmptyString). }
  assert (Htn : Str.truthy (Some new) = true).
  { cbn. destruct (String.eqb_spec new EmptyString) as [-> | _];
      [cbn in Hlen; discriminate | reflexivity]. }
  rewrite Ht, Htn. cbn [negb orb].
  unfold findByEmail in *. rewrite Hlow.
  rewrite findOne_map by (intros v; destruct (Nat.eqb _ _); now destruct v).
  rewrite Hfind. cbn [fmap option_fmap option_map]. cbv beta.
  rewrite Nat.eqb_refl. unfold comparePassword.
  replace (password (set_updatedAt (now env)
                       (set_password (bcrypt env new) user)))
    with (bcrypt env new) by now destruct user.
  rewrite Hbcrypt. cbn [negb].
  replace (status (set_updatedAt (now env)
                     (set_password (bcrypt env new) user)))
    with (status user) by now destruct user.
  rewrite Hact, bool_decide_eq_true_2 by reflexivity. cbn [negb fst].
  eexists _, _, _. split; [reflexivity|]. now destruct user.
Qed.

Lemma changed_password_logs_in_witness :
  exists message token logged,
    (login (Chain.env 9%nat) Scenario.bcryptCompare
       (mkLoginBody (Some "b@example.com") (Some "secret2") false)
       (changePassword (Chain.env 8%nat) Scenario.bcryptCompare
          (Chain.userOf Chain.b Scenario.activated)
          (_id (Chain.userOf Chain.b Scenario.activated))
          (Some "secret1") (Some "secret2") Scenario.activated).2).1
    = LoginOk message token logged /\
    tk_userId token = _id (Chain.userOf Chain.b Scenario.activated).
Proof.
  apply (changed_password_logs_in (Chain.env 8%nat) (Chain.env 9%nat)
           Scenario.bcryptCompare (Chain.userOf Chain.b Scenario.activated)
           (Chain.userOf Chain.b Scenario.activated) (Some "secret1")
           "secret2" "b@example.com" false Scenario.activated).
  - intros p. apply String.eqb_refl.
  - reflexivity.
  - apply (chain_indexesHold Scenario.activated). now right.
  - vm_compute. reflexivity.
  - vm_compute. reflexivity.
  - discriminate.
  - vm_compute. discriminate.
  - vm_compute. reflexivity.
Defined.
